(** * Effective corporate tax rates from FRED series

    A shallow embedding of [fetch_corporate_tax_data.py] (class
    [CorporateTaxDataFetcher]) and of [simple_effective_tax_rate.py].

    - Values are Python floats, i.e. IEEE binary64: Rocq's primitive [float].
    - A pandas Series / one-column DataFrame with a DatetimeIndex is the list
      of its rows [(date, value)] in row order; duplicated dates are possible.
    - Printing and HTTP requests are recorded in a trace of events; raised
      exceptions are explicit outcomes.
    - The remote API is an oracle from requests to outcomes. *)

From Stdlib Require Import ZArith List String Ascii Bool Lia Floats.
From Stdlib Require Import Sorting.Sorted Sorting.Permutation.
Import ListNotations.

Open Scope string_scope.
Open Scope Z_scope.
Open Scope list_scope.

(* ------------------------------------------------------------------ *)
(** ** Calendar dates (the timestamps of a DatetimeIndex) *)

Record date : Set := mkdate { year : Z; month : Z; day : Z }.

Definition date_compare (a b : date) : comparison :=
  match year a ?= year b with
  | Eq => match month a ?= month b with
          | Eq => day a ?= day b
          | c => c
          end
  | c => c
  end.

Definition date_eqb (a b : date) : bool :=
  match date_compare a b with Eq => true | _ => false end.

Definition date_leb (a b : date) : bool :=
  match date_compare a b with Gt => false | _ => true end.

Definition date_lt (a b : date) : Prop := date_compare a b = Lt.

Definition date_le (a b : date) : Prop := date_compare a b <> Gt.

(* ------------------------------------------------------------------ *)
(** ** Python exceptions *)

Inductive request_failure : Set :=
| ConnectionError (detail : string)
    (* requests.get itself raised: refused connection, DNS failure, timeout *)
| HTTPError (status_code : Z)
    (* response.raise_for_status() on a 4xx or 5xx answer *)
| JSONDecodeError.
    (* response.json() on a body that is not JSON *)

Inductive exn : Set :=
| ValueError (msg : string)
| KeyError (key : string)
| TypeError (msg : string)
| IndexError (msg : string)
| AttributeError (msg : string)
| RequestException (e : request_failure).

(** Pure library calls that may raise. *)
Inductive result (A : Type) : Type :=
| Ok (a : A)
| Raise (e : exn).
Arguments Ok {A} a.
Arguments Raise {A} e.

Definition result_bind {A B} (r : result A) (k : A -> result B) : result B :=
  match r with
  | Ok a => k a
  | Raise e => Raise e
  end.

(* ------------------------------------------------------------------ *)
(** ** Floats *)

Definition float_of_nat (n : nat) : float :=
  PrimFloat.of_uint63 (Uint63.of_Z (Z.of_nat n)).

Definition dropnan (xs : list float) : list float :=
  filter (fun x => negb (PrimFloat.is_nan x)) xs.

(** Summation, left to right from [0.0].  (The library's own order of
    additions differs between its kernels; only the rounding of the
    result depends on it.) *)
Definition fsum (xs : list float) : float :=
  fold_left PrimFloat.add xs 0%float.

(** Sum that skips NaN, as every pandas reduction does by default. *)
Definition nansum (xs : list float) : float := fsum (dropnan xs).

Fixpoint insert_float (x : float) (xs : list float) : list float :=
  match xs with
  | [] => [x]
  | y :: ys => if PrimFloat.ltb x y then x :: xs else y :: insert_float x ys
  end.

Definition sort_floats (xs : list float) : list float :=
  fold_right insert_float [] xs.

(* ------------------------------------------------------------------ *)
(** ** pandas: Index, Series, DataFrame *)

Definition Index : Set := list date.

Definition Series : Set := list (date * float).

Definition index (s : Series) : Index := map fst s.

Definition values (s : Series) : list float := map snd s.

Definition mem (d : date) (i : Index) : bool := existsb (date_eqb d) i.

(** [Index.unique]: first occurrences, in order. *)
Fixpoint unique_from (seen : Index) (i : Index) : Index :=
  match i with
  | [] => []
  | d :: rest =>
      if mem d seen then unique_from seen rest
      else d :: unique_from (d :: seen) rest
  end.

Definition unique (i : Index) : Index := unique_from [] i.

Fixpoint is_unique (i : Index) : bool :=
  match i with
  | [] => true
  | d :: rest => negb (mem d rest) && is_unique rest
  end.

Fixpoint index_equals (i j : Index) : bool :=
  match i, j with
  | [], [] => true
  | a :: i', b :: j' => date_eqb a b && index_equals i' j'
  | _, _ => false
  end.

(** [Index.intersection(other, sort=False)]: the labels of [self] that occur
    in [other], without repetition, in the order of [self]. *)
Definition intersection (self other : Index) : Index :=
  filter (fun d => mem d other) (unique self).

(** Label lookup on a Series (first row carrying the label). *)
Fixpoint get (d : date) (s : Series) : option float :=
  match s with
  | [] => None
  | (d', v) :: rest => if date_eqb d d' then Some v else get d rest
  end.

(** The value that reindexing puts at a label: NaN when the label is absent. *)
Definition value_at (s : Series) (d : date) : float :=
  match get d s with
  | Some v => v
  | None => PrimFloat.nan
  end.

(** [Series.reindex(target)]: nothing to do when the index already equals the
    target; otherwise the labels are looked up one by one, which pandas
    refuses on an index with duplicates. *)
Definition reindex (s : Series) (target : Index) : result (list float) :=
  if index_equals (index s) target then Ok (values s)
  else if is_unique (index s) then Ok (map (value_at s) target)
  else Raise (ValueError "cannot reindex on an axis with duplicate labels").

(** [pd.concat([a, b], axis=1, join='inner')] on two Series held by distinct
    objects: the joint index is the intersection of the two indexes, and each
    Series is reindexed to it to become a column. *)
Definition concat_inner (a b : Series) : result (list (date * (float * float))) :=
  let joint := intersection (index a) (index b) in
  result_bind (reindex a joint) (fun col_a =>
  result_bind (reindex b joint) (fun col_b =>
  Ok (combine joint (combine col_a col_b)))).

(** A DataFrame as the programs build it: [pd.DataFrame()] (no column, no
    row, no DatetimeIndex), or a frame indexed by date with the single
    column ['value']. *)
Inductive DataFrame : Set :=
| NoColumns
| ValueFrame (rows : Series).

Definition empty (df : DataFrame) : bool :=
  match df with
  | NoColumns => true
  | ValueFrame [] => true
  | ValueFrame (_ :: _) => false
  end.

(** [df['value']] *)
Definition getitem_value (df : DataFrame) : result Series :=
  match df with
  | NoColumns => Raise (KeyError "value")
  | ValueFrame rows => Ok rows
  end.

(** Stable sort of the rows by date: what resampling does first when the
    index is not monotonic. *)
Fixpoint insert_row (r : date * float) (s : Series) : Series :=
  match s with
  | [] => [r]
  | r' :: rest =>
      if date_leb (fst r') (fst r) then r' :: insert_row r rest
      else r :: s
  end.

Definition sort_index (s : Series) : Series :=
  fold_left (fun acc r => insert_row r acc) s [].

Definition year_end (y : Z) : date := mkdate y 12 31.

(** The integers [lo, lo+1, ..., hi]. *)
Definition years (lo hi : Z) : list Z :=
  map (fun k => lo + Z.of_nat k) (seq 0 (Z.to_nat (hi - lo + 1))).

Definition in_year (y : Z) (r : date * float) : bool := year (fst r) =? y.

(** [series.resample('A').sum()]: one bin per calendar year from the year of
    the earliest row to the year of the latest row, every bin labelled with
    its 31 December; the value of a bin is the NaN-skipping sum of its rows,
    which is [0.0] for a bin without rows. *)
Definition resample_A_sum_rows (s : Series) : Series :=
  match sort_index s with
  | [] => []
  | (first :: _) as sorted =>
      let lo := year (fst first) in
      let hi := year (fst (last sorted first)) in
      map (fun y => (year_end y, nansum (values (filter (in_year y) sorted))))
          (years lo hi)
  end.

(** [df.resample('A').sum()] needs a datetime-like index. *)
Definition resample_A_sum (df : DataFrame) : result DataFrame :=
  match df with
  | NoColumns =>
      Raise (TypeError "Only valid with DatetimeIndex, TimedeltaIndex or PeriodIndex")
  | ValueFrame rows => Ok (ValueFrame (resample_A_sum_rows rows))
  end.

(** Reductions of a Series (all skip NaN). *)
Definition mean (s : Series) : float :=
  match dropnan (values s) with
  | [] => PrimFloat.nan
  | xs => (fsum xs / float_of_nat (List.length xs))%float
  end.

Definition median (s : Series) : float :=
  let xs := sort_floats (dropnan (values s)) in
  let n := List.length xs in
  match xs with
  | [] => PrimFloat.nan
  | x0 :: _ =>
      if Nat.even n then
        ((nth (n / 2 - 1) xs x0 + nth (n / 2) xs x0) / 2)%float
      else nth (n / 2) xs x0
  end.

(** [Series.std(ddof)]: square root of the sum of squared deviations from
    the mean divided by [N - ddof], [N] the number of non-NaN values; NaN
    when [N <= ddof]. *)
Definition std_ddof (ddof : nat) (s : Series) : float :=
  let xs := dropnan (values s) in
  let n := List.length xs in
  if (n <=? ddof)%nat then PrimFloat.nan
  else
    let avg := (fsum xs / float_of_nat n)%float in
    let sqr := fsum (map (fun x => ((avg - x) * (avg - x))%float) xs) in
    PrimFloat.sqrt (sqr / float_of_nat (n - ddof))%float.

(** The default of [Series.std] is [ddof=1]. *)
Definition std (s : Series) : float := std_ddof 1 s.

Definition fmin (xs : list float) : float :=
  match xs with
  | [] => PrimFloat.nan
  | x :: rest => fold_left (fun m y => if PrimFloat.ltb y m then y else m) rest x
  end.

Definition fmax (xs : list float) : float :=
  match xs with
  | [] => PrimFloat.nan
  | x :: rest => fold_left (fun m y => if PrimFloat.ltb m y then y else m) rest x
  end.

Definition Series_min (s : Series) : float := fmin (dropnan (values s)).

Definition Series_max (s : Series) : float := fmax (dropnan (values s)).

(** First label whose value equals [v]. *)
Fixpoint label_of (v : float) (s : Series) : option date :=
  match s with
  | [] => None
  | (d, x) :: rest => if PrimFloat.eqb x v then Some d else label_of v rest
  end.

(** [idxmin()] / [idxmax()]; [None] stands for the NaN that pandas gives back
    when there is no value that is not NaN. *)
Definition idxmin (s : Series) : option date := label_of (Series_min s) s.

Definition idxmax (s : Series) : option date := label_of (Series_max s) s.

(* ------------------------------------------------------------------ *)
(** ** Effects: what is printed, what is requested, what is raised *)

Inductive frequency : Set := Quarterly | Annual.

(** The formatted lines of the statistics report, kept as data: the number
    a line shows is carried unrounded (the program prints it with two
    decimals). *)
Inductive report_line : Set :=
| Heading (f : frequency) (first_year last_year : Z)
| MeanLine (v : float)
| MedianLine (v : float)
| StdDevLine (v : float)
| MinLine (v : float) (on : date)
| MaxLine (v : float) (on : date)
| DecadeAverage (decade : Z) (v : float).

Inductive event : Set :=
| Print (text : string)
| PrintFetchError (series_id : string) (e : request_failure)
| PrintReport (l : report_line)
| HttpGet (url : string) (params : list (string * option string)).

Inductive outcome (A : Type) : Type :=
| Returned (a : A)
| Raised (e : exn).
Arguments Returned {A} a.
Arguments Raised {A} e.

(** A computation: the events it produced, in order, and how it ended. *)
Definition io (A : Type) : Type := (list event * outcome A)%type.

Definition ret {A} (a : A) : io A := ([], Returned a).

Definition raise {A} (e : exn) : io A := ([], Raised e).

Definition emit (ev : event) : io unit := ([ev], Returned tt).

Definition bind {A B} (m : io A) (k : A -> io B) : io B :=
  match m with
  | (t, Returned a) => let (t', o) := k a in (t ++ t', o)
  | (t, Raised e) => (t, Raised e)
  end.

Definition lift {A} (r : result A) : io A :=
  match r with
  | Ok a => ret a
  | Raise e => raise e
  end.

(** [try: body  except requests.exceptions.RequestException as e: handler] *)
Definition try_except {A} (body : io A) (handler : request_failure -> io A) : io A :=
  match body with
  | (t, Raised (RequestException e)) => let (t', o) := handler e in (t ++ t', o)
  | other => other
  end.

Notation "x <- m ;; k" := (bind m (fun x => k))
  (at level 61, m at next level, right associativity).
Notation "m ;; k" := (bind m (fun _ => k))
  (at level 61, right associativity).

Fixpoint for_each {A} (l : list A) (body : A -> io unit) : io unit :=
  match l with
  | [] => ret tt
  | a :: rest => body a ;; for_each rest body
  end.

Definition trace {A} (m : io A) : list event := fst m.

Definition result_of {A} (m : io A) : outcome A := snd m.

Definition is_request (ev : event) : bool :=
  match ev with
  | HttpGet _ _ => true
  | _ => false
  end.

(* ------------------------------------------------------------------ *)
(** ** requests: one GET against the remote API *)

(** One element of the JSON array ["observations"]. *)
Record observation : Set := mkobs { date_str : string; value_str : string }.

Inductive body : Set :=
| NotJSON
| JSON (observations : option (list observation)).
    (* a JSON object, with or without the key "observations" *)

Inductive http_outcome : Set :=
| Unreachable (detail : string)
| Response (status_code : Z) (b : body).

Definition network : Set := string -> list (string * option string) -> http_outcome.

Definition requests_get (net : network) (url : string)
    (params : list (string * option string)) : io (Z * body) :=
  emit (HttpGet url params) ;;
  match net url params with
  | Unreachable detail => raise (RequestException (ConnectionError detail))
  | Response status b => ret (status, b)
  end.

(** Client and server errors: the statuses on which [raise_for_status]
    raises. *)
Definition is_error_status (status : Z) : bool :=
  (400 <=? status) && (status <? 600).

Definition raise_for_status (response : Z * body) : io unit :=
  let status := fst response in
  if is_error_status status
  then raise (RequestException (HTTPError status))
  else ret tt.

Definition json (response : Z * body) : io (option (list observation)) :=
  match snd response with
  | NotJSON => raise (RequestException JSONDecodeError)
  | JSON data => ret data
  end.

(** [data['observations']] *)
Definition getitem_observations (data : option (list observation))
    : io (list observation) :=
  match data with
  | None => raise (KeyError "observations")
  | Some observations => ret observations
  end.

(* ------------------------------------------------------------------ *)
(** ** Turning the observations into a frame *)

Inductive datetime_parse : Set :=
| Unparseable
| NaT
| Timestamp (d : date).

(** The two pandas coercions of strings, [pd.to_datetime] (which raises on a
    string it cannot read) and [pd.to_numeric(errors='coerce')] (which gives
    NaN instead).  The programs are parametric in them. *)
Class Coercions : Set := {
  to_datetime : string -> datetime_parse;
  to_numeric : string -> float
}.

Section Frames.
Context {C : Coercions}.

Fixpoint to_datetime_column (col : list string) : result (list (option date)) :=
  match col with
  | [] => Ok []
  | s :: rest =>
      match to_datetime s with
      | Unparseable => Raise (ValueError "Unknown datetime string format")
      | NaT => result_bind (to_datetime_column rest) (fun ds => Ok (None :: ds))
      | Timestamp d =>
          result_bind (to_datetime_column rest) (fun ds => Ok (Some d :: ds))
      end
  end.

(** [df[['date', 'value']].dropna()] followed by [set_index('date')]. *)
Definition dropna (rows : list (option date * float)) : Series :=
  flat_map (fun r =>
              match r with
              | (Some d, v) => if PrimFloat.is_nan v then [] else [(d, v)]
              | (None, _) => []
              end) rows.

(** Lines 105-109 of [fetch_series], the same as lines 47-51 of
    [fetch_fred_series].  A frame built from an empty list has no column, so
    [df['date']] raises. *)
Definition frame_of_observations (observations : list observation)
    : result DataFrame :=
  match observations with
  | [] => Raise (KeyError "date")
  | _ :: _ =>
      result_bind (to_datetime_column (map date_str observations)) (fun dates =>
      let vals := map to_numeric (map value_str observations) in
      Ok (ValueFrame (dropna (combine dates vals))))
  end.

End Frames.

(* ------------------------------------------------------------------ *)
(** ** fetch_corporate_tax_data.py: class CorporateTaxDataFetcher *)

(** The instance attributes that the methods read ([series_info] is only
    documentation: no method consults it). *)
Record CorporateTaxDataFetcher : Set := {
  api_key : option string;
  base_url : string
}.

(** [__init__(self, api_key=None)] *)
Definition init (key : option string) : CorporateTaxDataFetcher :=
  {| api_key := key;
     base_url := "https://api.stlouisfed.org/fred/series/observations" |}.

(** Truth value of an optional string: [None] and [''] are false. *)
Definition truthy (s : option string) : bool :=
  match s with
  | None => false
  | Some text => negb (String.eqb text "")
  end.

Definition nl : string := String (ascii_of_nat 10) EmptyString.

Fixpoint str_repeat (s : string) (n : nat) : string :=
  match n with
  | O => EmptyString
  | S k => String.append s (str_repeat s k)
  end.

(** [range(start, stop, step)] for a positive step. *)
Definition range (start stop step : Z) : list Z :=
  map (fun k => start + step * Z.of_nat k)
      (seq 0 (Z.to_nat ((stop - start + step - 1) / step))).

(** [calculate_effective_tax_rate(self, tax_receipts, profits_before_tax)];
    [self] is not used. *)
Definition calculate_effective_tax_rate (tax_receipts profits_before_tax : Series)
    : result Series :=
  result_bind (concat_inner tax_receipts profits_before_tax) (fun aligned =>
  Ok (map (fun row : date * (float * float) =>
             let '(d, (tax, profits)) := row in
             (d, (tax / profits * 100)%float)) aligned)).

(** The dictionary [params] that [fetch_series] builds (lines 86-96). *)
Definition fetch_series_params (self : CorporateTaxDataFetcher)
    (series_id : string) (start_date end_date : option string)
    : list (string * option string) :=
  [("series_id", Some series_id);
   ("api_key", api_key self);
   ("file_type", Some "json");
   ("sort_order", Some "asc")]
  ++ (if truthy start_date then [("observation_start", start_date)] else [])
  ++ (if truthy end_date then [("observation_end", end_date)] else []).

(** The [url] and [params] of [fetch_fred_series] (lines 34-41). *)
Definition fred_url : string :=
  "https://api.stlouisfed.org/fred/series/observations".

Definition fetch_fred_series_params (series_id : string)
    (key start_date : option string) : list (string * option string) :=
  [("series_id", Some series_id);
   ("api_key", key);
   ("file_type", Some "json");
   ("observation_start", start_date);
   ("sort_order", Some "asc")].

(** The entries of the dictionary that [fetch_all_corporate_tax_data]
    returns; the two rates are keys that may be absent. *)
Record data_dict : Set := {
  tax_receipts_quarterly : DataFrame;
  profits_before_tax_quarterly : DataFrame;
  profits_after_tax_quarterly : DataFrame;
  effective_tax_rate_quarterly : option Series;
  tax_receipts_annual : DataFrame;
  effective_tax_rate_annual : option Series
}.

Section Programs.
Context {C : Coercions}.
Variable net : network.

Definition fetch_series (self : CorporateTaxDataFetcher) (series_id : string)
    (start_date end_date : option string) : io DataFrame :=
  if negb (truthy (api_key self)) then
    raise (ValueError "API key not set. Get your free API key at: https://fred.stlouisfed.org/docs/api/api_key.html")
  else
    let params := fetch_series_params self series_id start_date end_date in
    try_except
      (response <- requests_get net (base_url self) params ;;
       raise_for_status response ;;
       data <- json response ;;
       observations <- getitem_observations data ;;
       lift (frame_of_observations observations))
      (fun e =>
       emit (PrintFetchError series_id e) ;;
       ret NoColumns).

Definition fetch_all_corporate_tax_data (self : CorporateTaxDataFetcher)
    (start_date : option string) : io data_dict :=
  emit (Print "Fetching corporate tax data from FRED...") ;;
  emit (Print (String.append nl "Fetching quarterly data:")) ;;
  emit (Print "- Federal tax receipts on corporate income...") ;;
  tax_receipts_q <- fetch_series self "B075RC1Q027SBEA" start_date None ;;
  emit (Print "- Corporate profits before tax...") ;;
  profits_before_tax_q <- fetch_series self "A053RC1Q027SBEA" start_date None ;;
  emit (Print "- Corporate profits after tax...") ;;
  profits_after_tax_q <- fetch_series self "CP" start_date None ;;
  effective_rate_q <-
    (if negb (empty tax_receipts_q) && negb (empty profits_before_tax_q) then
       emit (Print (String.append nl "Calculating quarterly effective tax rate...")) ;;
       tax <- lift (getitem_value tax_receipts_q) ;;
       profits <- lift (getitem_value profits_before_tax_q) ;;
       rate <- lift (calculate_effective_tax_rate tax profits) ;;
       ret (Some rate)
     else ret None) ;;
  emit (Print (String.append nl "Fetching annual data:")) ;;
  emit (Print "- Federal tax receipts on corporate income (annual)...") ;;
  tax_receipts_a <- fetch_series self "FCTAX" start_date None ;;
  effective_rate_a <-
    (if negb (empty profits_before_tax_q) then
       emit (Print (String.append nl "Converting quarterly data to annual...")) ;;
       profits_before_tax_a <- lift (resample_A_sum profits_before_tax_q) ;;
       tax_receipts_q_annual <- lift (resample_A_sum tax_receipts_q) ;;
       tax <- lift (getitem_value tax_receipts_q_annual) ;;
       profits <- lift (getitem_value profits_before_tax_a) ;;
       rate <- lift (calculate_effective_tax_rate tax profits) ;;
       ret (Some rate)
     else ret None) ;;
  ret {| tax_receipts_quarterly := tax_receipts_q;
         profits_before_tax_quarterly := profits_before_tax_q;
         profits_after_tax_quarterly := profits_after_tax_q;
         effective_tax_rate_quarterly := effective_rate_q;
         tax_receipts_annual := tax_receipts_a;
         effective_tax_rate_annual := effective_rate_a |}.

(* ------------------------------------------------------------------ *)
(** ** simple_effective_tax_rate.py *)

Definition fetch_fred_series (series_id : string) (key : option string)
    (start_date : option string) : io DataFrame :=
  let url := fred_url in
  let params := fetch_fred_series_params series_id key start_date in
  response <- requests_get net url params ;;
  data <- json response ;;
  observations <- getitem_observations data ;;
  lift (frame_of_observations observations).

End Programs.

Definition calculate_effective_rate (tax_receipts profits_before_tax : Series)
    : result Series :=
  result_bind (concat_inner tax_receipts profits_before_tax) (fun combined =>
  Ok (map (fun row : date * (float * float) =>
             let '(d, (taxes, profits)) := row in
             (d, (taxes / profits * 100)%float)) combined)).

(* ------------------------------------------------------------------ *)
(** ** summary_statistics *)

(** [rate.index[0].year] and [rate.index[-1].year] *)
Definition first_last_year (rate : Series) : io (Z * Z) :=
  match rate with
  | [] => raise (IndexError "index 0 is out of bounds for axis 0 with size 0")
  | r :: _ => ret (year (fst r), year (fst (last rate r)))
  end.

(** The label that [idxmin()] / [idxmax()] gave, about to be formatted: the
    NaN of a Series without a value has neither [strftime] nor [year]. *)
Definition label (l : option date) : io date :=
  match l with
  | None => raise (AttributeError "'float' object has no attribute")
  | Some d => ret d
  end.

(** The six lines that both blocks of the report start with. *)
Definition describe (f : frequency) (rate : Series) : io unit :=
  bounds <- first_last_year rate ;;
  emit (PrintReport (Heading f (fst bounds) (snd bounds))) ;;
  emit (PrintReport (MeanLine (mean rate))) ;;
  emit (PrintReport (MedianLine (median rate))) ;;
  emit (PrintReport (StdDevLine (std rate))) ;;
  lo <- label (idxmin rate) ;;
  emit (PrintReport (MinLine (Series_min rate) lo)) ;;
  hi <- label (idxmax rate) ;;
  emit (PrintReport (MaxLine (Series_max rate) hi)).

(** [rate_q[(rate_q.index.year >= decade) & (rate_q.index.year < decade + 10)]] *)
Definition decade_data (rate : Series) (decade : Z) : Series :=
  filter (fun r => (decade <=? year (fst r)) && (year (fst r) <? decade + 10)) rate.

Definition summary_statistics (data : data_dict) : io unit :=
  emit (Print (String.append nl (str_repeat "=" 60))) ;;
  emit (Print "SUMMARY STATISTICS") ;;
  emit (Print (str_repeat "=" 60)) ;;
  match effective_tax_rate_quarterly data with
  | Some rate_q =>
      describe Quarterly rate_q ;;
      emit (Print (String.append nl "Decade Averages:")) ;;
      for_each (range 1950 2030 10) (fun decade =>
        match decade_data rate_q decade with
        | [] => ret tt
        | bucket => emit (PrintReport (DecadeAverage decade (mean bucket)))
        end)
  | None => ret tt
  end ;;
  match effective_tax_rate_annual data with
  | Some rate_a => describe Annual rate_a
  | None => ret tt
  end.

(** The decade lines of a trace, as (decade, average) pairs. *)
Definition decade_averages (t : list event) : list (Z * float) :=
  flat_map (fun ev =>
              match ev with
              | PrintReport (DecadeAverage decade v) => [(decade, v)]
              | _ => []
              end) t.

(** The standard deviations of a trace. *)
Definition std_devs (t : list event) : list float :=
  flat_map (fun ev =>
              match ev with
              | PrintReport (StdDevLine v) => [v]
              | _ => []
              end) t.

(* ------------------------------------------------------------------ *)
(** ** The coercions on the strings that the API documents

    Dates are [YYYY-MM-DD]; values are plain decimal numbers, or ["."] where
    the API has no value.  These instances cover that format and are what the
    examples run with. *)

Definition digit (c : ascii) : option Z :=
  let n := Z.of_nat (nat_of_ascii c) in
  if (48 <=? n) && (n <=? 57) then Some (n - 48) else None.

(** Value of a run of decimal digits; [None] on any other character. *)
Fixpoint number_from (acc : Z) (cs : list ascii) : option Z :=
  match cs with
  | [] => Some acc
  | c :: rest =>
      match digit c with
      | Some k => number_from (10 * acc + k) rest
      | None => None
      end
  end.

Definition is_leap (y : Z) : bool :=
  ((y mod 4 =? 0) && negb (y mod 100 =? 0)) || (y mod 400 =? 0).

Definition days_in_month (y m : Z) : Z :=
  if m =? 2 then (if is_leap y then 29 else 28)
  else if (m =? 4) || (m =? 6) || (m =? 9) || (m =? 11) then 30
  else 31.

Definition nat_strings : list string :=
  [""; "NaT"; "nat"; "NAT"; "nan"; "NaN"; "NAN"].

Definition iso_date (s : string) : datetime_parse :=
  if existsb (String.eqb s) nat_strings then NaT
  else
    match list_ascii_of_string s with
    | [y1; y2; y3; y4; dash1; m1; m2; dash2; d1; d2] =>
        match number_from 0 [y1; y2; y3; y4],
              number_from 0 [m1; m2],
              number_from 0 [d1; d2] with
        | Some y, Some m, Some d =>
            if Ascii.eqb dash1 "-" && Ascii.eqb dash2 "-"
               && (1 <=? y) && (1 <=? m) && (m <=? 12)
               && (1 <=? d) && (d <=? days_in_month y m)
            then Timestamp (mkdate y m d)
            else Unparseable
        | _, _, _ => Unparseable
        end
    | _ => Unparseable
    end.

(** [num / den] rounded once to the nearest binary64 (ties to even): the
    quotient is taken with at least 56 significant bits and a sticky last
    bit, then rounded. *)
Definition round_quotient (negative : bool) (num den : Z) : float :=
  let s := Z.max 0 (Z.log2 den + 56 - Z.log2 num) in
  let scaled := num * 2 ^ s in
  let q := scaled / den in
  let sticky := if scaled mod den =? 0 then 0 else 1 in
  let m := 2 * q + sticky in
  SF2Prim (binary_normalize prec emax (if negative then - m else m) (- s - 1) negative).

Definition split_sign (cs : list ascii) : bool * list ascii :=
  match cs with
  | c :: rest =>
      if Ascii.eqb c "-" then (true, rest)
      else if Ascii.eqb c "+" then (false, rest)
      else (false, cs)
  | [] => (false, [])
  end.

(** The characters before and after the first ["."]. *)
Fixpoint split_point (cs : list ascii) : list ascii * option (list ascii) :=
  match cs with
  | [] => ([], None)
  | c :: rest =>
      if Ascii.eqb c "." then ([], Some rest)
      else let (whole, frac) := split_point rest in (c :: whole, frac)
  end.

(** A decimal literal: optional sign, digits, optional point and digits, at
    least one digit in all.  Everything else is not a number here. *)
Definition decimal (s : string) : float :=
  let (negative, body) := split_sign (list_ascii_of_string s) in
  let (whole, frac) := split_point body in
  let fraction := match frac with Some f => f | None => [] end in
  match whole ++ fraction with
  | [] => PrimFloat.nan
  | all_digits =>
      match number_from 0 all_digits with
      | Some num => round_quotient negative num (10 ^ Z.of_nat (List.length fraction))
      | None => PrimFloat.nan
      end
  end.

Definition fred : Coercions := {| to_datetime := iso_date; to_numeric := decimal |}.

(* ------------------------------------------------------------------ *)
(** ** Vocabulary of the statements *)

(** Dates strictly increasing along the rows: ascending and without
    repetition. *)
Definition ascending (s : Series) : Prop := StronglySorted date_lt (index s).

(** The rows of the frame that a fetch returned. *)
Definition rows_of (run : io DataFrame) : Series :=
  match result_of run with
  | Returned (ValueFrame rows) => rows
  | _ => []
  end.

(** A failed fetch of [series_id] that was logged and answered by the empty
    frame. *)
Definition logged_and_empty (series_id : string) (run : io DataFrame) : Prop :=
  result_of run = Returned NoColumns /\
  exists e, In (PrintFetchError series_id e) (trace run).

(** A run that raised without having sent any request. *)
Definition fails_fast {A} (run : io A) : Prop :=
  (exists e, result_of run = Raised e) /\
  existsb is_request (trace run) = false.

(** The observations that survive [dropna], in the order of the response. *)
Definition surviving {C : Coercions} (observations : list observation) : Series :=
  flat_map (fun o =>
              match to_datetime (date_str o) with
              | Timestamp d =>
                  if PrimFloat.is_nan (to_numeric (value_str o)) then []
                  else [(d, to_numeric (value_str o))]
              | _ => []
              end) observations.

(** The rate at each date of the joint index. *)
Definition rate_rows (a b : Series) : Series :=
  map (fun d => (d, (value_at a d / value_at b d * 100)%float))
      (intersection (index a) (index b)).

(** The rows of [s] reach from a year not after [Y] to a year not before
    [Y]: [Y] lies between the years of the earliest and the latest row. *)
Definition spans (s : Series) (Y : Z) : Prop :=
  exists r1 r2, In r1 s /\ In r2 s /\ year (fst r1) <= Y <= year (fst r2).

(** The sample standard deviation in the words of the specification: the
    square root of the sum of squared deviations from the mean over [N - 1]. *)
Definition sample_std (xs : list float) : float :=
  let n := List.length xs in
  let avg := (fsum xs / float_of_nat n)%float in
  PrimFloat.sqrt
    (fsum (map (fun x => ((avg - x) * (avg - x))%float) xs) / float_of_nat (n - 1))%float.

(** The decade lines that the loop over [range(1950, 2030, 10)] prints for a
    rate series. *)
Definition decade_lines (rate : Series) (decades : list Z) : list (Z * float) :=
  flat_map (fun decade =>
              match decade_data rate decade with
              | [] => []
              | bucket => [(decade, mean bucket)]
              end) decades.

(* ------------------------------------------------------------------ *)
(** ** Worked inputs *)

(** Tax receipts on two quarters, profits on the first of them only. *)
Definition tax_2020 : Series :=
  [(mkdate 2020 1 1, 100%float); (mkdate 2020 4 1, 100%float)].

Definition profit_2020 : Series := [(mkdate 2020 1 1, 1000%float)].

(** A quarter with a profit of zero. *)
Definition profit_zero : Series := [(mkdate 2020 1 1, 0%float)].

(** Quarterly rows in 2018 and 2020, none in 2019. *)
Definition gap_series : Series :=
  [(mkdate 2018 1 1, 1%float); (mkdate 2020 1 1, 2%float);
   (mkdate 2020 4 1, 3%float)].

(** A report on a quarterly rate alone. *)
Definition report_of (rate_q : Series) : data_dict :=
  {| tax_receipts_quarterly := NoColumns;
     profits_before_tax_quarterly := NoColumns;
     profits_after_tax_quarterly := NoColumns;
     effective_tax_rate_quarterly := Some rate_q;
     tax_receipts_annual := NoColumns;
     effective_tax_rate_annual := None |}.

(** The four quarters of every year from 1950 to 1959, at the rate 40.0. *)
Definition fifties : Series :=
  flat_map (fun y => [(mkdate y 1 1, 40%float); (mkdate y 4 1, 40%float);
                      (mkdate y 7 1, 40%float); (mkdate y 10 1, 40%float)])
           (years 1950 1959).

(** A rate series that starts in the last quarter of 1949. *)
Definition rate_from_1949 : Series :=
  [(mkdate 1949 10 1, 40%float); (mkdate 1950 1 1, 40%float)].

(** Eight rates with mean 5 and squared deviations summing to 32. *)
Definition spread : Series :=
  [(mkdate 2000 1 1, 2%float); (mkdate 2000 4 1, 4%float);
   (mkdate 2000 7 1, 4%float); (mkdate 2000 10 1, 4%float);
   (mkdate 2001 1 1, 5%float); (mkdate 2001 4 1, 5%float);
   (mkdate 2001 7 1, 7%float); (mkdate 2001 10 1, 9%float)].

(** A response with one number and one missing-value marker. *)
Definition sentinel_response : network :=
  fun _ _ =>
    Response 200 (JSON (Some [mkobs "2020-01-01" "5.0"; mkobs "2020-04-01" "."])).

(** A response whose observations come latest first. *)
Definition descending_response : network :=
  fun _ _ =>
    Response 200 (JSON (Some [mkobs "2020-04-01" "1.0"; mkobs "2020-01-01" "2.0"])).

(** A host that cannot be reached. *)
Definition unreachable : network := fun _ _ => Unreachable "connection refused".

(** The answer to a request without a valid key: status 400 and a JSON
    object that describes the error. *)
Definition bad_request : network := fun _ _ => Response 400 (JSON None).

(* ------------------------------------------------------------------ *)
(** ** export_to_csv *)

(** A value of the dictionary: a frame or a series. *)
Inductive entry : Set :=
| Frame (df : DataFrame)
| Rate (s : Series).

(** [data_dict.items()], in the order in which
    [fetch_all_corporate_tax_data] sets the keys. *)
Definition items (data : data_dict) : list (string * entry) :=
  [("tax_receipts_quarterly", Frame (tax_receipts_quarterly data));
   ("profits_before_tax_quarterly", Frame (profits_before_tax_quarterly data));
   ("profits_after_tax_quarterly", Frame (profits_after_tax_quarterly data))]
  ++ match effective_tax_rate_quarterly data with
     | Some rate => [("effective_tax_rate_quarterly", Rate rate)]
     | None => []
     end
  ++ [("tax_receipts_annual", Frame (tax_receipts_annual data))]
  ++ match effective_tax_rate_annual data with
     | Some rate => [("effective_tax_rate_annual", Rate rate)]
     | None => []
     end.

(** What the export does: it writes a value to a file, and it says so. *)
Inductive export_event : Set :=
| ToCsv (filename : string) (data : entry)
| Exported (key filename : string).

(** [export_to_csv(self, data_dict, prefix)]: every value of the dictionary
    is a frame or a series, so the [isinstance] test holds for each. *)
Definition export_to_csv (data : data_dict) (prefix : string) : list export_event :=
  flat_map (fun item : string * entry =>
              let (key, value) := item in
              let filename :=
                String.append prefix
                  (String.append "_" (String.append key ".csv")) in
              [ToCsv filename value; Exported key filename])
           (items data).

(** The names of the files an export wrote, in order. *)
Definition written (t : list export_event) : list string :=
  flat_map (fun ev => match ev with
                      | ToCsv filename _ => [filename]
                      | Exported _ _ => []
                      end) t.

(* ------------------------------------------------------------------ *)
(** ** More vocabulary *)

(** An outcome of a request that [fetch_series] treats as a failure. *)
Definition failed (o : http_outcome) : bool :=
  match o with
  | Unreachable _ => true
  | Response status _ => is_error_status status
  end.

(** The requests of a trace, in order. *)
Definition requests (t : list event) : list event := filter is_request t.

(** The series a request asks for. *)
Fixpoint series_of (params : list (string * option string)) : option string :=
  match params with
  | [] => None
  | (k, v) :: rest => if String.eqb k "series_id" then v else series_of rest
  end.

(** The identifiers of the series requested along a trace. *)
Definition requested_series (t : list event) : list (option string) :=
  flat_map (fun ev => match ev with
                      | HttpGet _ params => [series_of params]
                      | _ => []
                      end) t.

(** The lines of the report in a trace. *)
Definition report_lines (t : list event) : list report_line :=
  flat_map (fun ev => match ev with
                      | PrintReport l => [l]
                      | _ => []
                      end) t.

(** The decade whose bucket holds the year [y]. *)
Definition decade_of (y : Z) : Z := 1950 + 10 * ((y - 1950) / 10).

(** A network on which only the quarterly profits can be fetched. *)
Definition only_profits : network :=
  fun _ params =>
    match series_of params with
    | Some "A053RC1Q027SBEA" =>
        Response 200 (JSON (Some [mkobs "2020-01-01" "1000.0"]))
    | _ => Unreachable "connection refused"
    end.

(** A network that serves quarterly receipts and profits with a year
    without observations between two years that have them. *)
Definition with_gap : network :=
  fun _ params =>
    match series_of params with
    | Some "B075RC1Q027SBEA" =>
        Response 200 (JSON (Some [mkobs "2018-01-01" "100.0";
                                  mkobs "2020-01-01" "120.0"]))
    | Some "A053RC1Q027SBEA" =>
        Response 200 (JSON (Some [mkobs "2018-01-01" "1000.0";
                                  mkobs "2020-01-01" "800.0"]))
    | _ => Unreachable "connection refused"
    end.

(** Responses with no observation, with an unreadable date, and with
    nothing but missing values. *)
Definition no_observations : network :=
  fun _ _ => Response 200 (JSON (Some [])).

Definition unreadable_date : network :=
  fun _ _ => Response 200 (JSON (Some [mkobs "first quarter" "5.0"])).

Definition all_missing : network :=
  fun _ _ =>
    Response 200 (JSON (Some [mkobs "2020-01-01" "."; mkobs "2020-04-01" "."])).

(** A rate series whose values are all NaN. *)
Definition all_nan : Series :=
  [(mkdate 2020 1 1, PrimFloat.nan); (mkdate 2020 4 1, PrimFloat.nan)].

(** Profits of the first quarter of 2020 listed after those of a later
    quarter. *)
Definition profit_shuffled : Series :=
  [(mkdate 2020 7 1, 500%float); (mkdate 2020 1 1, 1000%float)].

Definition profit_ordered : Series :=
  [(mkdate 2020 1 1, 1000%float); (mkdate 2020 7 1, 500%float)].


(* ------------------------------------------------------------------ *)
(** ** Dates *)

Lemma date_compare_spec (a b : date) :
  match date_compare a b with
  | Eq => a = b
  | Lt => year a < year b \/
          (year a = year b /\
           (month a < month b \/ (month a = month b /\ day a < day b)))
  | Gt => year b < year a \/
          (year b = year a /\
           (month b < month a \/ (month b = month a /\ day b < day a)))
  end.
Proof.
  destruct a as [ya ma da], b as [yb mb db]; unfold date_compare; simpl.
  destruct (Z.compare_spec ya yb); try lia.
  destruct (Z.compare_spec ma mb); try lia.
  destruct (Z.compare_spec da db); try lia.
  subst; reflexivity.
Qed.

Lemma date_eqb_eq (a b : date) : date_eqb a b = true <-> a = b.
Proof.
  unfold date_eqb. pose proof (date_compare_spec a b) as H.
  destruct (date_compare a b); split; intro E; try discriminate; auto.
  - subst b. lia.
  - subst b. lia.
Qed.

Lemma date_eqb_refl (a : date) : date_eqb a a = true.
Proof. apply date_eqb_eq; reflexivity. Qed.

Lemma date_lt_trans (a b c : date) : date_lt a b -> date_lt b c -> date_lt a c.
Proof.
  unfold date_lt. intros H1 H2.
  pose proof (date_compare_spec a b) as S1. rewrite H1 in S1.
  pose proof (date_compare_spec b c) as S2. rewrite H2 in S2.
  pose proof (date_compare_spec a c) as S3.
  destruct (date_compare a c); auto; try subst c; lia.
Qed.

Lemma date_lt_irrefl (a : date) : ~ date_lt a a.
Proof.
  unfold date_lt. intro H.
  pose proof (date_compare_spec a a) as S. rewrite H in S. lia.
Qed.

Lemma date_le_trans (a b c : date) : date_le a b -> date_le b c -> date_le a c.
Proof.
  unfold date_le. intros H1 H2 H3.
  pose proof (date_compare_spec a b) as S1.
  pose proof (date_compare_spec b c) as S2.
  pose proof (date_compare_spec a c) as S3. rewrite H3 in S3.
  destruct (date_compare a b); destruct (date_compare b c);
    try congruence; subst; try lia.
Qed.

Lemma date_leb_le (a b : date) : date_leb a b = true <-> date_le a b.
Proof.
  unfold date_leb, date_le. destruct (date_compare a b); split; congruence.
Qed.

Lemma date_leb_false (a b : date) : date_leb a b = false -> date_le b a.
Proof.
  unfold date_leb, date_le. intros H H'.
  pose proof (date_compare_spec a b) as S1.
  pose proof (date_compare_spec b a) as S2. rewrite H' in S2.
  destruct (date_compare a b); try discriminate. lia.
Qed.

Lemma date_le_year (a b : date) : date_le a b -> year a <= year b.
Proof.
  unfold date_le. intro H. pose proof (date_compare_spec a b) as S.
  destruct (date_compare a b); try congruence; subst; lia.
Qed.

Lemma year_end_inj (y y' : Z) : year_end y = year_end y' -> y = y'.
Proof. unfold year_end. intro H. injection H. auto. Qed.

Lemma year_end_lt (y y' : Z) : y < y' -> date_lt (year_end y) (year_end y').
Proof.
  intro H. unfold date_lt, year_end, date_compare; simpl.
  destruct (Z.compare_spec y y'); auto; lia.
Qed.

(* ------------------------------------------------------------------ *)
(** ** Indexes *)

Lemma mem_In (d : date) (i : Index) : mem d i = true <-> In d i.
Proof.
  unfold mem. rewrite existsb_exists. split.
  - intros [x [Hx E]]. apply date_eqb_eq in E. subst; auto.
  - intro H. exists d. split; auto. apply date_eqb_refl.
Qed.

Lemma mem_false (d : date) (i : Index) : mem d i = false <-> ~ In d i.
Proof.
  rewrite <- mem_In. destruct (mem d i); split; congruence.
Qed.

Lemma is_unique_NoDup (i : Index) : is_unique i = true <-> NoDup i.
Proof.
  induction i as [|d rest IH]; simpl.
  - split; auto. constructor.
  - rewrite andb_true_iff, negb_true_iff, mem_false, IH. split.
    + intros [H1 H2]. constructor; auto.
    + intro H. inversion H; auto.
Qed.

Lemma index_equals_eq (i j : Index) : index_equals i j = true <-> i = j.
Proof.
  revert j. induction i as [|a i IH]; destruct j as [|b j]; simpl;
    try (split; congruence).
  rewrite andb_true_iff, date_eqb_eq, IH. split.
  - intros [-> ->]; reflexivity.
  - intro H; injection H; auto.
Qed.

Lemma unique_from_In (seen i : Index) (d : date) :
  In d (unique_from seen i) <-> In d i /\ ~ In d seen.
Proof.
  revert seen. induction i as [|x rest IH]; intro seen; simpl.
  - tauto.
  - destruct (mem x seen) eqn:M.
    + apply mem_In in M. rewrite IH. split.
      * intros [H1 H2]; auto.
      * intros [[->|H1] H2]; [contradiction | auto].
    + apply mem_false in M. simpl. rewrite IH. simpl. split.
      * intros [->|[H1 H2]]; auto.
      * intros [[->|H1] H2]; auto.
        destruct (date_eqb x d) eqn:E.
        -- apply date_eqb_eq in E; auto.
        -- right. split; auto. intros [->|H3]; auto.
           rewrite date_eqb_refl in E; discriminate.
Qed.

Lemma unique_from_NoDup (seen i : Index) : NoDup (unique_from seen i).
Proof.
  revert seen. induction i as [|x rest IH]; intro seen; simpl.
  - constructor.
  - destruct (mem x seen); auto. constructor; auto.
    rewrite unique_from_In. simpl. tauto.
Qed.

Lemma unique_from_length (seen i : Index) :
  (List.length (unique_from seen i) <= List.length i)%nat.
Proof.
  revert seen. induction i as [|x rest IH]; intro seen; simpl; auto.
  destruct (mem x seen); simpl.
  - specialize (IH seen). lia.
  - specialize (IH (x :: seen)). lia.
Qed.

Lemma unique_from_NoDup_id (seen i : Index) :
  NoDup i -> (forall d, In d i -> ~ In d seen) -> unique_from seen i = i.
Proof.
  revert seen. induction i as [|x rest IH]; intros seen ND Hs; simpl; auto.
  inversion ND as [|? ? Hx ND']; subst.
  assert (M : mem x seen = false) by (apply mem_false, Hs; left; reflexivity).
  rewrite M. f_equal. apply IH; auto.
  intros d Hd [->|H]; [contradiction|]. apply (Hs d); [right|]; auto.
Qed.

Lemma unique_NoDup_id (i : Index) : NoDup i -> unique i = i.
Proof. intro H. apply unique_from_NoDup_id; auto. Qed.

Lemma intersection_In (a b : Index) (d : date) :
  In d (intersection a b) <-> In d a /\ In d b.
Proof.
  unfold intersection, unique. rewrite filter_In, unique_from_In, mem_In.
  simpl. tauto.
Qed.

Lemma intersection_NoDup (a b : Index) : NoDup (intersection a b).
Proof. apply NoDup_filter, unique_from_NoDup. Qed.

Lemma filter_length_le {A} (f : A -> bool) (l : list A) :
  (List.length (filter f l) <= List.length l)%nat.
Proof.
  induction l as [|x l IH]; simpl; auto. destruct (f x); simpl; lia.
Qed.

Lemma intersection_length (a b : Index) :
  (List.length (intersection a b) <= Nat.min (List.length a) (List.length b))%nat.
Proof.
  apply Nat.min_glb.
  - unfold intersection, unique.
    pose proof (filter_length_le (fun d => mem d b) (unique_from [] a)).
    pose proof (unique_from_length [] a). lia.
  - apply NoDup_incl_length; [apply intersection_NoDup|].
    intros d H. apply intersection_In in H. tauto.
Qed.

Lemma intersection_unique_left (a b : Index) :
  NoDup a -> intersection a b = filter (fun d => mem d b) a.
Proof. intro H. unfold intersection. rewrite unique_NoDup_id; auto. Qed.

(* ------------------------------------------------------------------ *)
(** ** Alignment of two Series and the rate *)

Lemma get_In (s : Series) (d : date) (v : float) :
  get d s = Some v -> In (d, v) s.
Proof.
  induction s as [|[d' x] rest IH]; simpl; [discriminate|].
  destruct (date_eqb d d') eqn:E.
  - apply date_eqb_eq in E. intro H. injection H as ->. subst. auto.
  - auto.
Qed.

Lemma get_Some_index (s : Series) (d : date) :
  In d (index s) <-> exists v, get d s = Some v.
Proof.
  induction s as [|[d' x] rest IH]; simpl.
  - split; [tauto | intros [v H]; discriminate].
  - destruct (date_eqb d d') eqn:E.
    + apply date_eqb_eq in E. subst. split; eauto.
    + rewrite IH. split; auto. intros [->|H]; auto.
      rewrite date_eqb_refl in E. discriminate.
Qed.

Lemma value_at_get (s : Series) (d : date) (v : float) :
  get d s = Some v -> value_at s d = v.
Proof. unfold value_at. intros ->. reflexivity. Qed.

Lemma values_by_label (s : Series) :
  NoDup (index s) -> map (value_at s) (index s) = values s.
Proof.
  induction s as [|[d x] rest IH]; simpl; auto.
  intro ND. inversion ND as [|? ? Hd ND']; subst.
  unfold value_at at 1. simpl. rewrite date_eqb_refl. f_equal.
  rewrite <- IH by assumption. apply map_ext_in.
  intros d' Hd'. unfold value_at. simpl.
  destruct (date_eqb d' d) eqn:E; auto.
  apply date_eqb_eq in E. subst. contradiction.
Qed.

Lemma reindex_unique (s : Series) (target : Index) :
  NoDup (index s) -> reindex s target = Ok (map (value_at s) target).
Proof.
  intro ND. unfold reindex.
  destruct (index_equals (index s) target) eqn:E.
  - apply index_equals_eq in E. rewrite <- E, values_by_label; auto.
  - apply is_unique_NoDup in ND. rewrite ND. reflexivity.
Qed.

Lemma reindex_duplicates (s : Series) (target : Index) :
  ~ NoDup (index s) -> NoDup target ->
  reindex s target =
  Raise (ValueError "cannot reindex on an axis with duplicate labels").
Proof.
  intros ND NT. unfold reindex.
  destruct (index_equals (index s) target) eqn:E.
  - apply index_equals_eq in E. rewrite E in ND. contradiction.
  - destruct (is_unique (index s)) eqn:U; auto.
    apply is_unique_NoDup in U. contradiction.
Qed.

Lemma combine_columns (a b : Series) (joint : Index) :
  combine joint (combine (map (value_at a) joint) (map (value_at b) joint)) =
  map (fun d => (d, (value_at a d, value_at b d))) joint.
Proof. induction joint as [|d rest IH]; simpl; congruence. Qed.

(** What [pd.concat(..., axis=1, join='inner')] amounts to. *)
Lemma concat_inner_spec (a b : Series) :
  concat_inner a b =
  if is_unique (index a) && is_unique (index b) then
    Ok (map (fun d => (d, (value_at a d, value_at b d)))
            (intersection (index a) (index b)))
  else Raise (ValueError "cannot reindex on an axis with duplicate labels").
Proof.
  unfold concat_inner.
  pose proof (intersection_NoDup (index a) (index b)) as NJ.
  destruct (is_unique (index a)) eqn:Ua; simpl.
  - apply is_unique_NoDup in Ua. rewrite reindex_unique by assumption. simpl.
    destruct (is_unique (index b)) eqn:Ub.
    + apply is_unique_NoDup in Ub. rewrite reindex_unique by assumption. simpl.
      rewrite combine_columns. reflexivity.
    + rewrite reindex_duplicates; auto.
      rewrite <- is_unique_NoDup. congruence.
  - rewrite reindex_duplicates; auto.
    rewrite <- is_unique_NoDup. congruence.
Qed.

Lemma calculate_effective_tax_rate_spec (a b : Series) :
  calculate_effective_tax_rate a b =
  if is_unique (index a) && is_unique (index b) then Ok (rate_rows a b)
  else Raise (ValueError "cannot reindex on an axis with duplicate labels").
Proof.
  unfold calculate_effective_tax_rate. rewrite concat_inner_spec.
  destruct (is_unique (index a) && is_unique (index b)); simpl; auto.
  unfold rate_rows. rewrite map_map. reflexivity.
Qed.

Lemma calculate_effective_rate_spec (a b : Series) :
  calculate_effective_rate a b =
  if is_unique (index a) && is_unique (index b) then Ok (rate_rows a b)
  else Raise (ValueError "cannot reindex on an axis with duplicate labels").
Proof.
  unfold calculate_effective_rate. rewrite concat_inner_spec.
  destruct (is_unique (index a) && is_unique (index b)); simpl; auto.
  unfold rate_rows. rewrite map_map. reflexivity.
Qed.

Lemma calculate_unique (a b : Series) :
  NoDup (index a) -> NoDup (index b) ->
  calculate_effective_tax_rate a b = Ok (rate_rows a b) /\
  calculate_effective_rate a b = Ok (rate_rows a b).
Proof.
  intros Ha Hb. apply is_unique_NoDup in Ha, Hb.
  rewrite calculate_effective_tax_rate_spec, calculate_effective_rate_spec.
  rewrite Ha, Hb. auto.
Qed.

Lemma calculate_returned (a b rate : Series) :
  calculate_effective_tax_rate a b = Ok rate \/
  calculate_effective_rate a b = Ok rate ->
  rate = rate_rows a b /\ NoDup (index a) /\ NoDup (index b).
Proof.
  rewrite calculate_effective_tax_rate_spec, calculate_effective_rate_spec.
  destruct (is_unique (index a)) eqn:Ua; destruct (is_unique (index b)) eqn:Ub;
    simpl; intros [H|H]; try discriminate;
    injection H as <-; rewrite <- !is_unique_NoDup; auto.
Qed.

Lemma rate_rows_index (a b : Series) :
  index (rate_rows a b) = intersection (index a) (index b).
Proof.
  unfold rate_rows, index. rewrite map_map. simpl. apply map_id.
Qed.

Lemma get_keyed_map (f : date -> float) (i : Index) (d : date) :
  In d i -> get d (map (fun x => (x, f x)) i) = Some (f d).
Proof.
  induction i as [|x rest IH]; simpl; [tauto|].
  intro H. destruct (date_eqb d x) eqn:E.
  - apply date_eqb_eq in E. subst. reflexivity.
  - destruct H as [->|H]; auto. rewrite date_eqb_refl in E. discriminate.
Qed.

Lemma rate_rows_get (a b : Series) (d : date) (x y : float) :
  get d a = Some x -> get d b = Some y ->
  get d (rate_rows a b) = Some (x / y * 100)%float.
Proof.
  intros Ha Hb. unfold rate_rows.
  rewrite (get_keyed_map (fun d => (value_at a d / value_at b d * 100)%float)).
  - rewrite (value_at_get _ _ _ Ha), (value_at_get _ _ _ Hb). reflexivity.
  - apply intersection_In. split; apply get_Some_index; eauto.
Qed.

(** C1: the dates of the rate series that either rate calculation returns are
    exactly the dates present in both inputs, and the series is no longer
    than the shorter input; a rate series is returned whenever neither input
    repeats a date. *)
Theorem rate_domain_is_intersection (A B : Series) :
  (forall rate,
      calculate_effective_tax_rate A B = Ok rate \/
      calculate_effective_rate A B = Ok rate ->
      (forall d, In d (index rate) <-> In d (index A) /\ In d (index B)) /\
      (List.length rate <= Nat.min (List.length A) (List.length B))%nat) /\
  (NoDup (index A) -> NoDup (index B) ->
   exists rate,
     calculate_effective_tax_rate A B = Ok rate /\
     calculate_effective_rate A B = Ok rate).
Proof.
  split.
  - intros rate H. apply calculate_returned in H as [-> _]. split.
    + intro d. rewrite rate_rows_index. apply intersection_In.
    + pose proof (intersection_length (index A) (index B)) as L.
      rewrite <- rate_rows_index in L. unfold index in L.
      rewrite !length_map in L. exact L.
  - intros HA HB. exists (rate_rows A B). apply calculate_unique; auto.
Qed.

(** C2: at every date present in both inputs, the returned rate is the
    double-precision value of (A[d] / B[d]) * 100, i.e. 100 * A[d] / B[d]
    with one rounding per operation, in the order the code applies them. *)
Theorem rate_value_at_shared_date (A B rate : Series) (d : date) (a b : float) :
  calculate_effective_tax_rate A B = Ok rate \/
  calculate_effective_rate A B = Ok rate ->
  get d A = Some a ->
  get d B = Some b ->
  get d rate = Some (a / b * 100)%float.
Proof.
  intros H Ha Hb. apply calculate_returned in H as [-> _].
  apply rate_rows_get; assumption.
Qed.

(* ------------------------------------------------------------------ *)
(** ** Division by zero in binary64 *)

Lemma is_nan_of_spec (x : float) : Prim2SF x = S754_nan -> PrimFloat.is_nan x = true.
Proof.
  intro H. unfold PrimFloat.is_nan. rewrite eqb_spec, H. reflexivity.
Qed.

Lemma is_infinity_of_spec (x : float) (s : bool) :
  Prim2SF x = S754_infinity s -> PrimFloat.is_infinity x = true.
Proof.
  intro H. unfold PrimFloat.is_infinity. rewrite eqb_spec, abs_spec, H.
  reflexivity.
Qed.

Lemma eqb_zero_spec (x : float) :
  PrimFloat.eqb x 0 = true -> exists s, Prim2SF x = S754_zero s.
Proof.
  rewrite eqb_spec. change (Prim2SF 0) with (S754_zero false).
  destruct (Prim2SF x) as [s| s | |s m e]; simpl; try discriminate.
  - eauto.
  - destruct s; discriminate.
  - destruct s; discriminate.
Qed.

Lemma rate_over_zero (a b : float) :
  PrimFloat.eqb b 0 = true ->
  PrimFloat.is_nan (a / b * 100)%float = true \/
  PrimFloat.is_infinity (a / b * 100)%float = true.
Proof.
  intro Hb. apply eqb_zero_spec in Hb as [sb Hb].
  assert (H100 : exists m e, Prim2SF 100 = S754_finite false m e).
  { eexists. eexists. vm_compute. reflexivity. }
  destruct H100 as [m [e H100]].
  pose proof (mul_spec (a / b) 100) as M.
  rewrite div_spec, Hb, H100 in M.
  destruct (Prim2SF a) as [sa| sa | |sa ma ea]; simpl in M.
  - left. apply is_nan_of_spec. exact M.
  - right. apply (is_infinity_of_spec _ _ M).
  - left. apply is_nan_of_spec. exact M.
  - right. apply (is_infinity_of_spec _ _ M).
Qed.

(** C10: a shared date whose denominator is zero or negative is neither
    dropped nor rejected: for every value of B[d] the date stays in the
    returned rate series with the value (A[d] / B[d]) * 100, and that value
    is an infinity or NaN when B[d] is zero. *)
Theorem zero_denominator_is_not_guarded (A B : Series) (d : date) (a b : float) :
  NoDup (index A) -> NoDup (index B) ->
  get d A = Some a ->
  get d B = Some b ->
  exists rate,
    calculate_effective_tax_rate A B = Ok rate /\
    calculate_effective_rate A B = Ok rate /\
    In d (index rate) /\
    get d rate = Some (a / b * 100)%float /\
    (PrimFloat.eqb b 0 = true ->
     PrimFloat.is_nan (a / b * 100)%float = true \/
     PrimFloat.is_infinity (a / b * 100)%float = true).
Proof.
  intros HA HB Ha Hb. exists (rate_rows A B).
  destruct (calculate_unique A B HA HB) as [E1 E2].
  repeat split; auto.
  - rewrite rate_rows_index. apply intersection_In.
    split; apply get_Some_index; eauto.
  - apply rate_rows_get; assumption.
  - apply rate_over_zero.
Qed.

(* ------------------------------------------------------------------ *)
(** ** Resampling to calendar years *)

Lemma insert_row_perm (r : date * float) (s : Series) :
  Permutation (insert_row r s) (r :: s).
Proof.
  induction s as [|r' rest IH]; simpl; auto.
  destruct (date_leb (fst r') (fst r)); auto.
  rewrite IH. apply perm_swap.
Qed.

Lemma fold_insert_perm (s acc : Series) :
  Permutation (fold_left (fun acc r => insert_row r acc) s acc) (acc ++ s).
Proof.
  revert acc. induction s as [|r rest IH]; intro acc; simpl.
  - rewrite app_nil_r. reflexivity.
  - rewrite IH, insert_row_perm. apply Permutation_middle.
Qed.

Lemma sort_index_perm (s : Series) : Permutation (sort_index s) s.
Proof. unfold sort_index. apply (fold_insert_perm s []). Qed.

Lemma insert_row_sorted (r : date * float) (s : Series) :
  StronglySorted (fun x y => date_le (fst x) (fst y)) s ->
  StronglySorted (fun x y => date_le (fst x) (fst y)) (insert_row r s).
Proof.
  induction s as [|r' rest IH]; simpl; intro H.
  - repeat constructor.
  - inversion H as [|? ? Hs Hf]; subst.
    destruct (date_leb (fst r') (fst r)) eqn:E.
    + constructor; auto.
      apply (Permutation_Forall (Permutation_sym (insert_row_perm r rest))).
      constructor; auto. apply date_leb_le; assumption.
    + apply date_leb_false in E. constructor; auto. constructor; auto.
      eapply Forall_impl; [|exact Hf]. simpl. intros x Hx.
      eapply date_le_trans; eauto.
Qed.

Lemma sort_index_sorted (s : Series) :
  StronglySorted (fun x y => date_le (fst x) (fst y)) (sort_index s).
Proof.
  unfold sort_index.
  assert (G : forall acc,
             StronglySorted (fun x y => date_le (fst x) (fst y)) acc ->
             StronglySorted (fun x y => date_le (fst x) (fst y))
               (fold_left (fun acc r => insert_row r acc) s acc)).
  { induction s as [|r rest IH]; intros acc H; simpl; auto.
    apply IH, insert_row_sorted, H. }
  apply G. constructor.
Qed.

Lemma insert_row_last (r : date * float) (s : Series) :
  Forall (fun x => date_le (fst x) (fst r)) s -> insert_row r s = s ++ [r].
Proof.
  induction s as [|r' rest IH]; simpl; intro H; auto.
  inversion H as [|? ? H1 H2]; subst.
  apply date_leb_le in H1. rewrite H1, IH; auto.
Qed.

Lemma fold_insert_sorted (s acc : Series) :
  StronglySorted (fun x y => date_le (fst x) (fst y)) (acc ++ s) ->
  fold_left (fun acc r => insert_row r acc) s acc = acc ++ s.
Proof.
  revert acc. induction s as [|r rest IH]; intros acc H; simpl.
  - rewrite app_nil_r. reflexivity.
  - rewrite insert_row_last.
    + rewrite IH; rewrite <- app_assoc; simpl; auto.
    + clear IH. induction acc as [|x acc IHacc]; simpl in *; auto.
      inversion H as [|? ? Hs Hf]; subst. constructor; auto.
      rewrite Forall_forall in Hf. apply Hf, in_or_app. right. left. reflexivity.
Qed.

Lemma date_lt_le (a b : date) : date_lt a b -> date_le a b.
Proof. unfold date_lt, date_le. congruence. Qed.

Lemma sort_index_ascending (s : Series) : ascending s -> sort_index s = s.
Proof.
  intro H. unfold sort_index. apply (fold_insert_sorted s []). simpl.
  unfold ascending, index in H.
  induction s as [|r rest IH]; [constructor|].
  simpl in H. inversion H as [|? ? Hs Hf]; subst. constructor; auto.
  rewrite Forall_map in Hf. eapply Forall_impl; [|exact Hf].
  simpl. intros x Hx. apply date_lt_le, Hx.
Qed.

Lemma last_in {A} (l : list A) (d : A) : l <> [] -> In (last l d) l.
Proof.
  induction l as [|x rest IH]; [congruence|].
  intros _. destruct rest as [|y rest']; [left; reflexivity|].
  right. apply IH. discriminate.
Qed.

Lemma sorted_last_max (s : Series) (r0 r : date * float) :
  StronglySorted (fun x y => date_le (fst x) (fst y)) s ->
  In r s -> date_le (fst r) (fst (last s r0)).
Proof.
  induction s as [|x rest IH]; [simpl; tauto|].
  intros H Hin. inversion H as [|? ? Hs Hf]; subst.
  destruct rest as [|y rest'].
  - destruct Hin as [->|[]]. simpl. unfold date_le, date_compare.
    rewrite !Z.compare_refl. discriminate.
  - destruct Hin as [->|Hin].
    + rewrite Forall_forall in Hf. apply Hf.
      change (last (r :: y :: rest') r0) with (last (y :: rest') r0).
      apply last_in. discriminate.
    + change (last (x :: y :: rest') r0) with (last (y :: rest') r0).
      apply IH; auto.
Qed.

Lemma sorted_head_min (s : Series) (r0 r : date * float) :
  StronglySorted (fun x y => date_le (fst x) (fst y)) (r0 :: s) ->
  In r (r0 :: s) -> date_le (fst r0) (fst r).
Proof.
  intros H Hin. inversion H as [|? ? Hs Hf]; subst.
  destruct Hin as [->|Hin].
  - unfold date_le, date_compare. rewrite !Z.compare_refl. discriminate.
  - rewrite Forall_forall in Hf. apply Hf, Hin.
Qed.

Lemma years_In (lo hi Y : Z) : In Y (years lo hi) <-> lo <= Y <= hi.
Proof.
  unfold years. rewrite in_map_iff. split.
  - intros [k [<- Hk]]. apply in_seq in Hk. lia.
  - intro H. exists (Z.to_nat (Y - lo)). split; [lia|].
    apply in_seq. lia.
Qed.

Lemma years_ascending (f : Z -> float) (lo hi : Z) :
  ascending (map (fun y => (year_end y, f y)) (years lo hi)).
Proof.
  unfold ascending, index, years. rewrite !map_map. simpl.
  generalize (Z.to_nat (hi - lo + 1)) as n. generalize 0%nat as start.
  intros start n. revert start.
  induction n as [|n IH]; intro start; simpl; constructor; auto.
  apply Forall_map, Forall_forall. intros k Hk. apply in_seq in Hk.
  apply year_end_lt. lia.
Qed.

Lemma get_year_end (f : Z -> float) (ys : list Z) (Y : Z) :
  In Y ys -> get (year_end Y) (map (fun y => (year_end y, f y)) ys) = Some (f Y).
Proof.
  induction ys as [|y rest IH]; simpl; [tauto|].
  intro H. destruct (date_eqb (year_end Y) (year_end y)) eqn:E.
  - apply date_eqb_eq, year_end_inj in E. subst. reflexivity.
  - destruct H as [->|H]; auto. rewrite date_eqb_refl in E. discriminate.
Qed.

(** The bins of [resample('A')]: from the year of the earliest row to the
    year of the latest. *)
Lemma resample_bins (s : Series) :
  exists lo hi,
    resample_A_sum_rows s =
      map (fun y => (year_end y,
                     nansum (values (filter (in_year y) (sort_index s)))))
          (years lo hi) /\
    forall Y, lo <= Y <= hi <-> spans s Y.
Proof.
  unfold resample_A_sum_rows.
  pose proof (sort_index_sorted s) as Hsorted.
  pose proof (sort_index_perm s) as Hperm.
  destruct (sort_index s) as [|first rest] eqn:E.
  - exists 1, 0. split; [reflexivity|].
    apply Permutation_nil in Hperm. subst s.
    intro Y. split; [lia|]. intros [r1 [_ [[] _]]].
  - exists (year (fst first)), (year (fst (last (first :: rest) first))).
    split; [reflexivity|].
    assert (Hin : forall r, In r s <-> In r (first :: rest)).
    { intro r. split; apply Permutation_in; auto using Permutation_sym. }
    intro Y. split.
    + intro HY. exists first, (last (first :: rest) first).
      repeat split; try lia; apply Hin.
      * left; reflexivity.
      * apply last_in. discriminate.
    + intros [r1 [r2 [H1 [H2 HY]]]]. apply Hin in H1, H2.
      pose proof (date_le_year _ _ (sorted_head_min rest first r1 Hsorted H1)).
      pose proof (date_le_year _ _
                    (sorted_last_max (first :: rest) first r2 Hsorted H2)).
      lia.
Qed.

Lemma filter_perm {A} (f : A -> bool) (l l' : list A) :
  Permutation l l' -> Permutation (filter f l) (filter f l').
Proof.
  induction 1 as [|x l l' _ IH|x y l|l l' l'' _ IH1 _ IH2]; simpl.
  - constructor.
  - destruct (f x); auto.
  - destruct (f x), (f y); auto. apply perm_swap.
  - etransitivity; eauto.
Qed.

(** C3, as the code has it: resampling yields one observation, dated
    31 December, for every calendar year from the year of the earliest
    observation to the year of the latest one, and none outside; its value
    is the sum of the observations dated in that year, taken in date order,
    which is 0.0 for a year in between that has no observation. *)
Theorem resample_sums_each_year_of_the_span (s : Series) (Y : Z) :
  (spans s Y ->
   get (year_end Y) (resample_A_sum_rows s) =
     Some (nansum (values (filter (in_year Y) (sort_index s))))) /\
  (spans s Y -> filter (in_year Y) s = [] ->
   get (year_end Y) (resample_A_sum_rows s) = Some 0%float) /\
  (~ spans s Y -> ~ In (year_end Y) (index (resample_A_sum_rows s))) /\
  ascending (resample_A_sum_rows s) /\
  (forall d, In d (index (resample_A_sum_rows s)) -> exists y, d = year_end y) /\
  Permutation (filter (in_year Y) (sort_index s)) (filter (in_year Y) s) /\
  (ascending s -> sort_index s = s).
Proof.
  destruct (resample_bins s) as [lo [hi [E Hspan]]].
  assert (G : spans s Y ->
              get (year_end Y) (resample_A_sum_rows s) =
              Some (nansum (values (filter (in_year Y) (sort_index s))))).
  { intro H. rewrite E.
    apply (get_year_end
             (fun y => nansum (values (filter (in_year y) (sort_index s))))).
    apply years_In, Hspan, H. }
  assert (P : Permutation (filter (in_year Y) (sort_index s))
                          (filter (in_year Y) s)).
  { apply filter_perm, sort_index_perm. }
  repeat split.
  - exact G.
  - intros H Hnone. rewrite (G H). rewrite Hnone in P.
    apply Permutation_sym, Permutation_nil in P. rewrite P. reflexivity.
  - intros Hn Hin. apply Hn. rewrite E in Hin.
    unfold index in Hin. rewrite map_map in Hin. simpl in Hin.
    apply in_map_iff in Hin as [y [Hy Hin]].
    apply year_end_inj in Hy. subst y. apply Hspan, years_In, Hin.
  - rewrite E. apply years_ascending.
  - intros d Hin. rewrite E in Hin.
    unfold index in Hin. rewrite map_map in Hin. simpl in Hin.
    apply in_map_iff in Hin as [y [Hy _]]. eauto.
  - exact P.
  - apply sort_index_ascending.
Qed.

(** C3 as stated fails on a series with a gap: 2019 has no quarterly
    observation and still gets an annual one. *)
Lemma resample_fills_gap_year :
  ~ (forall Y, filter (in_year Y) gap_series = [] ->
               ~ In (year_end Y) (index (resample_A_sum_rows gap_series))).
Proof.
  intro H. apply (H 2019); [reflexivity|].
  vm_compute. right. left. reflexivity.
Qed.

Lemma resample_sums_each_year_of_the_span_witness :
  get (year_end 2019) (resample_A_sum_rows gap_series) = Some 0%float /\
  get (year_end 2020) (resample_A_sum_rows gap_series) =
    Some (nansum (values (filter (in_year 2020) (sort_index gap_series)))) /\
  ~ In (year_end 2021) (index (resample_A_sum_rows gap_series)).
Proof.
  assert (S19 : spans gap_series 2019).
  { exists (mkdate 2018 1 1, 1%float), (mkdate 2020 1 1, 2%float).
    simpl. repeat split; auto; lia. }
  assert (S20 : spans gap_series 2020).
  { exists (mkdate 2018 1 1, 1%float), (mkdate 2020 1 1, 2%float).
    simpl. repeat split; auto; lia. }
  assert (S21 : ~ spans gap_series 2021).
  { intros [r1 [r2 [_ [H2 HY]]]]. simpl in H2.
    destruct H2 as [<-|[<-|[<-|[]]]]; simpl in HY; lia. }
  split; [|split].
  - apply (proj1 (proj2 (resample_sums_each_year_of_the_span gap_series 2019)) S19).
    reflexivity.
  - apply (proj1 (resample_sums_each_year_of_the_span gap_series 2020) S20).
  - apply (proj1 (proj2 (proj2 (resample_sums_each_year_of_the_span gap_series 2021))) S21).
Defined.

(* ------------------------------------------------------------------ *)
(** ** The statistics report *)

Lemma trace_bind {A B} (m : io A) (k : A -> io B) :
  trace (bind m k) =
  trace m ++ match result_of m with
             | Returned a => trace (k a)
             | Raised _ => []
             end.
Proof.
  destruct m as [t [a|e]]; unfold bind, trace, result_of; simpl.
  - destruct (k a); reflexivity.
  - rewrite app_nil_r. reflexivity.
Qed.

Lemma result_bind_returned {A B} (m : io A) (k : A -> io B) (a : A) :
  result_of m = Returned a -> result_of (bind m k) = result_of (k a).
Proof.
  destruct m as [t o]. unfold result_of, bind. simpl. intros ->.
  destruct (k a); reflexivity.
Qed.

Lemma decade_averages_app (t t' : list event) :
  decade_averages (t ++ t') = decade_averages t ++ decade_averages t'.
Proof. apply flat_map_app. Qed.

Lemma std_devs_app (t t' : list event) :
  std_devs (t ++ t') = std_devs t ++ std_devs t'.
Proof. apply flat_map_app. Qed.

Lemma fmin_in (xs : list float) : xs <> [] -> In (fmin xs) xs.
Proof.
  destruct xs as [|x rest]; [congruence|]. intros _. simpl.
  revert x. induction rest as [|y rest IH]; intro x; simpl; auto.
  destruct (PrimFloat.ltb y x); specialize (IH y) as IHy; specialize (IH x);
    tauto.
Qed.

Lemma fmax_in (xs : list float) : xs <> [] -> In (fmax xs) xs.
Proof.
  destruct xs as [|x rest]; [congruence|]. intros _. simpl.
  revert x. induction rest as [|y rest IH]; intro x; simpl; auto.
  destruct (PrimFloat.ltb x y); specialize (IH y) as IHy; specialize (IH x);
    tauto.
Qed.

Lemma label_of_found (s : Series) (v : float) :
  In v (dropnan (values s)) -> exists d, label_of v s = Some d.
Proof.
  induction s as [|[d x] rest IH]; simpl; [tauto|].
  intro H. destruct (PrimFloat.eqb x v) eqn:E; eauto.
  apply IH. destruct (PrimFloat.is_nan x) eqn:N; simpl in H; auto.
  destruct H as [->|H]; auto.
  unfold PrimFloat.is_nan in N. rewrite E in N. discriminate.
Qed.

(** A rate series with at least one value that is not NaN gets its six
    lines. *)
Lemma describe_returns (f : frequency) (rate : Series) :
  dropnan (values rate) <> [] ->
  exists t,
    describe f rate = (t, Returned tt) /\
    decade_averages t = [] /\
    std_devs t = [std rate].
Proof.
  intro H.
  destruct (label_of_found rate _ (fmin_in _ H)) as [lo Hlo].
  destruct (label_of_found rate _ (fmax_in _ H)) as [hi Hhi].
  destruct rate as [|r rest]; [simpl in H; congruence|].
  unfold describe, first_last_year, idxmin, idxmax, Series_min, Series_max.
  rewrite Hlo, Hhi. eexists. split; [reflexivity|]. split; reflexivity.
Qed.

Lemma describe_no_decade_line (f : frequency) (rate : Series) :
  decade_averages (trace (describe f rate)) = [].
Proof.
  unfold describe, first_last_year.
  destruct rate as [|r rest]; [reflexivity|].
  destruct (idxmin (r :: rest)); [|reflexivity].
  destruct (idxmax (r :: rest)); reflexivity.
Qed.

Lemma decade_loop (rate : Series) (decades : list Z) :
  exists t,
    for_each decades (fun decade =>
      match decade_data rate decade with
      | [] => ret tt
      | bucket => emit (PrintReport (DecadeAverage decade (mean bucket)))
      end) = (t, Returned tt) /\
    decade_averages t = decade_lines rate decades /\
    std_devs t = [].
Proof.
  induction decades as [|decade rest [t [E [D S]]]]; simpl.
  - exists []. auto.
  - rewrite E. unfold decade_lines. simpl.
    destruct (decade_data rate decade) as [|r bucket]; simpl; eexists;
      (split; [reflexivity|]); simpl; rewrite D, S; auto.
Qed.

Lemma range_decades :
  range 1950 2030 10 = [1950; 1960; 1970; 1980; 1990; 2000; 2010; 2020].
Proof. reflexivity. Qed.

(** The quarterly block of the report, for a rate with a value. *)
Lemma quarterly_block (data : data_dict) (rate_q : Series) :
  effective_tax_rate_quarterly data = Some rate_q ->
  dropnan (values rate_q) <> [] ->
  decade_averages (trace (summary_statistics data)) =
    decade_lines rate_q [1950; 1960; 1970; 1980; 1990; 2000; 2010; 2020] /\
  std_devs (trace (summary_statistics data)) =
    std rate_q :: match effective_tax_rate_annual data with
                  | Some rate_a => std_devs (trace (describe Annual rate_a))
                  | None => []
                  end.
Proof.
  intros Hq Hv. split.
  - unfold summary_statistics. rewrite Hq, range_decades.
    destruct (describe_returns Quarterly rate_q Hv) as [t [E [D S]]].
    destruct (decade_loop rate_q [1950; 1960; 1970; 1980; 1990; 2000; 2010; 2020])
      as [t' [E' [D' S']]].
    rewrite E, E'. cbn [bind emit ret app trace fst].
    destruct (effective_tax_rate_annual data) as [rate_a|].
    + pose proof (describe_no_decade_line Annual rate_a) as N.
      destruct (describe Annual rate_a) as [ta oa]. cbn [trace fst] in *.
      unfold decade_averages in *. cbn [flat_map app].
      rewrite !flat_map_app. cbn [flat_map app]. rewrite D, D', N.
      rewrite app_nil_r. reflexivity.
    + cbn [bind emit ret app trace fst]. unfold decade_averages in *. cbn [flat_map app].
      rewrite !flat_map_app. cbn [flat_map app]. rewrite D, D'.
      rewrite app_nil_r. reflexivity.
  - unfold summary_statistics. rewrite Hq, range_decades.
    destruct (describe_returns Quarterly rate_q Hv) as [t [E [D S]]].
    destruct (decade_loop rate_q [1950; 1960; 1970; 1980; 1990; 2000; 2010; 2020])
      as [t' [E' [D' S']]].
    rewrite E, E'. cbn [bind emit ret app trace fst].
    destruct (effective_tax_rate_annual data) as [rate_a|].
    + destruct (describe Annual rate_a) as [ta oa]. cbn [trace fst] in *.
      unfold std_devs in *. cbn [flat_map app].
      rewrite !flat_map_app. cbn [flat_map app]. rewrite S, S'.
      reflexivity.
    + cbn [bind emit ret app trace fst]. unfold std_devs in *. cbn [flat_map app].
      rewrite !flat_map_app. cbn [flat_map app]. rewrite S, S'.
      reflexivity.
Qed.

Lemma std_is_sample_std (s : Series) :
  (2 <= List.length (dropnan (values s)))%nat ->
  std s = sample_std (dropnan (values s)).
Proof.
  intro H. unfold std, std_ddof, sample_std.
  destruct (Nat.leb_spec (List.length (dropnan (values s))) 1); [lia|].
  reflexivity.
Qed.

Lemma two_values_not_empty (xs : list float) : (2 <= List.length xs)%nat -> xs <> [].
Proof. destruct xs; simpl; [lia | discriminate]. Qed.

(** C7, as the code has it: the decade averages are computed for the eight
    fixed buckets 1950s to 2020s (the base year 1950 and the end 2030 are
    constants of the loop); a bucket holds the observations of the years
    [decade .. decade + 9], a bucket with observations reports their mean
    and an empty bucket reports nothing; for the rate 40.0 on every quarter
    of 1950-1959 the only line is 40.0 for the 1950s. *)
Theorem decade_averages_of_fixed_buckets (data : data_dict) (rate_q : Series) :
  effective_tax_rate_quarterly data = Some rate_q ->
  dropnan (values rate_q) <> [] ->
  decade_averages (trace (summary_statistics data)) =
    decade_lines rate_q [1950; 1960; 1970; 1980; 1990; 2000; 2010; 2020] /\
  (forall decade v,
      In (decade, v) (decade_averages (trace (summary_statistics data))) <->
      In decade [1950; 1960; 1970; 1980; 1990; 2000; 2010; 2020] /\
      decade_data rate_q decade <> [] /\
      v = mean (decade_data rate_q decade)) /\
  (forall decade r,
      In r (decade_data rate_q decade) <->
      In r rate_q /\ decade <= year (fst r) < decade + 10) /\
  decade_averages (trace (summary_statistics (report_of fifties))) =
    [(1950, 40%float)].
Proof.
  intros Hq Hv.
  destruct (quarterly_block data rate_q Hq Hv) as [D _].
  split; [exact D|]. split; [|split].
  - intros decade v. rewrite D. unfold decade_lines. rewrite in_flat_map.
    split.
    + intros [x [Hx Hin]].
      destruct (decade_data rate_q x) as [|r bucket] eqn:E; [destruct Hin|].
      destruct Hin as [Hin|[]]. injection Hin as <- <-.
      rewrite E. repeat split; auto. discriminate.
    + intros [Hd [Hne ->]]. exists decade. split; auto.
      destruct (decade_data rate_q decade) as [|r bucket]; [congruence|].
      left. reflexivity.
  - intros decade r. unfold decade_data. rewrite filter_In.
    rewrite andb_true_iff, Z.leb_le, Z.ltb_lt. tauto.
  - vm_compute. reflexivity.
Qed.

(** C7 as stated fails: the observation of 1949 is in none of the reported
    buckets, so the buckets do not partition the observations and their
    base year cannot be moved. *)
Lemma observation_before_1950_in_no_bucket :
  ~ (forall r, In r rate_from_1949 ->
       exists line,
         In line (decade_averages
                    (trace (summary_statistics (report_of rate_from_1949)))) /\
         fst line <= year (fst r) < fst line + 10).
Proof.
  intro H. destruct (H (mkdate 1949 10 1, 40%float)) as [line [Hin Hy]].
  - left. reflexivity.
  - vm_compute in Hin. destruct Hin as [<-|[]]. simpl in Hy. lia.
Qed.

Lemma decade_averages_of_fixed_buckets_witness :
  decade_averages (trace (summary_statistics (report_of rate_from_1949))) =
    decade_lines rate_from_1949 [1950; 1960; 1970; 1980; 1990; 2000; 2010; 2020].
Proof.
  apply (decade_averages_of_fixed_buckets (report_of rate_from_1949) rate_from_1949).
  - reflexivity.
  - vm_compute. discriminate.
Defined.

(** C8: the standard deviation that the report shows for a rate series is
    the sample standard deviation of its values (NaN left out): the square
    root of the sum of squared deviations from the mean divided by N - 1.
    On eight rates whose squared deviations sum to 32 it shows
    sqrt (32 / 7), not the population value 2. *)
Theorem reported_std_is_sample_std (data : data_dict) (rate_q rate_a : Series) :
  effective_tax_rate_quarterly data = Some rate_q ->
  effective_tax_rate_annual data = Some rate_a ->
  (2 <= List.length (dropnan (values rate_q)))%nat ->
  (2 <= List.length (dropnan (values rate_a)))%nat ->
  std_devs (trace (summary_statistics data)) =
    [sample_std (dropnan (values rate_q)); sample_std (dropnan (values rate_a))] /\
  std_devs (trace (summary_statistics (report_of spread))) =
    [PrimFloat.sqrt (32 / 7)%float] /\
  PrimFloat.sqrt (32 / 7)%float <> 2%float.
Proof.
  intros Hq Ha Nq Na.
  destruct (quarterly_block data rate_q Hq (two_values_not_empty _ Nq)) as [_ S].
  split; [|split].
  - rewrite S, Ha.
    destruct (describe_returns Annual rate_a (two_values_not_empty _ Na))
      as [t [E [_ Sa]]].
    rewrite E. cbn [trace fst]. rewrite Sa.
    rewrite !std_is_sample_std by assumption. reflexivity.
  - vm_compute. reflexivity.
  - vm_compute. discriminate.
Qed.

Lemma reported_std_is_sample_std_witness :
  std_devs (trace (summary_statistics
                     {| tax_receipts_quarterly := NoColumns;
                        profits_before_tax_quarterly := NoColumns;
                        profits_after_tax_quarterly := NoColumns;
                        effective_tax_rate_quarterly := Some spread;
                        tax_receipts_annual := NoColumns;
                        effective_tax_rate_annual := Some tax_2020 |})) =
    [sample_std (dropnan (values spread)); sample_std (dropnan (values tax_2020))].
Proof.
  apply (reported_std_is_sample_std _ spread tax_2020).
  - reflexivity.
  - reflexivity.
  - vm_compute. lia.
  - vm_compute. lia.
Defined.

(* ------------------------------------------------------------------ *)
(** ** Fetching *)

Section Fetching.
Context {C : Coercions}.

Lemma to_datetime_column_returned (col : list string) (ds : list (option date)) :
  to_datetime_column col = Ok ds ->
  ds = map (fun s => match to_datetime s with
                     | Timestamp d => Some d
                     | _ => None
                     end) col.
Proof.
  revert ds. induction col as [|s rest IH]; simpl; intro ds.
  - intro H. injection H as <-. reflexivity.
  - destruct (to_datetime s); [discriminate| |];
      destruct (to_datetime_column rest) as [ds'|e]; simpl; try discriminate;
      intro H; injection H as <-; rewrite (IH ds' eq_refl); reflexivity.
Qed.

Lemma to_datetime_column_parses (col : list string) :
  (forall s, In s col -> to_datetime s <> Unparseable) ->
  exists ds, to_datetime_column col = Ok ds.
Proof.
  induction col as [|s rest IH]; simpl; intro H; [eauto|].
  destruct IH as [ds E]; [auto|]. rewrite E.
  destruct (to_datetime s) eqn:P; simpl; eauto.
  exfalso. apply (H s); auto.
Qed.

Lemma dropna_surviving (observations : list observation) :
  dropna (combine
            (map (fun s => match to_datetime s with
                           | Timestamp d => Some d
                           | _ => None
                           end) (map date_str observations))
            (map to_numeric (map value_str observations))) =
  surviving observations.
Proof.
  unfold dropna, surviving.
  induction observations as [|o rest IH]; simpl; auto.
  rewrite IH. destruct (to_datetime (date_str o)); reflexivity.
Qed.

Lemma frame_returned (observations : list observation) (df : DataFrame) :
  frame_of_observations observations = Ok df ->
  df = ValueFrame (surviving observations).
Proof.
  unfold frame_of_observations.
  destruct observations as [|o rest]; [discriminate|].
  destruct (to_datetime_column (map date_str (o :: rest))) as [ds|e] eqn:E;
    simpl; [|discriminate].
  intro H. injection H as <-.
  apply to_datetime_column_returned in E. subst ds.
  rewrite dropna_surviving. reflexivity.
Qed.

Lemma frame_of_parsed (observations : list observation) :
  observations <> [] ->
  (forall o, In o observations -> to_datetime (date_str o) <> Unparseable) ->
  frame_of_observations observations = Ok (ValueFrame (surviving observations)).
Proof.
  intros Hne Hp.
  destruct (to_datetime_column_parses (map date_str observations)) as [ds E].
  { intros s Hs. apply in_map_iff in Hs as [o [<- Ho]]. auto. }
  destruct (frame_of_observations observations) as [df|e] eqn:F.
  - rewrite (frame_returned _ _ F). reflexivity.
  - unfold frame_of_observations in F.
    destruct observations; [congruence|]. rewrite E in F. discriminate.
Qed.

Lemma to_datetime_column_raises (col : list string) (e : exn) :
  to_datetime_column col = Raise e ->
  e = ValueError "Unknown datetime string format".
Proof.
  induction col as [|s rest IH]; simpl; [discriminate|].
  destruct (to_datetime s).
  - intro H. injection H as <-. reflexivity.
  - destruct (to_datetime_column rest); simpl; [discriminate|].
    intro H. injection H as <-. auto.
  - destruct (to_datetime_column rest); simpl; [discriminate|].
    intro H. injection H as <-. auto.
Qed.

Lemma frame_raises (observations : list observation) (e : exn) :
  frame_of_observations observations = Raise e ->
  e = KeyError "date" \/ e = ValueError "Unknown datetime string format".
Proof.
  unfold frame_of_observations. destruct observations as [|o rest].
  - intro H. injection H as <-. auto.
  - destruct (to_datetime_column (map date_str (o :: rest))) as [ds|e'] eqn:E;
      simpl; [discriminate|].
    intro H. injection H as <-. right.
    apply (to_datetime_column_raises _ _ E).
Qed.

Lemma surviving_In (observations : list observation) (d : date) (v : float) :
  In (d, v) (surviving observations) <->
  exists o, In o observations /\
            to_datetime (date_str o) = Timestamp d /\
            to_numeric (value_str o) = v /\
            PrimFloat.is_nan v = false.
Proof.
  unfold surviving. rewrite in_flat_map. split.
  - intros [o [Ho Hin]]. exists o. split; auto.
    destruct (to_datetime (date_str o)) as [| |d']; try destruct Hin.
    destruct (PrimFloat.is_nan (to_numeric (value_str o))) eqn:N;
      [destruct Hin|].
    destruct Hin as [Hin|[]]. injection Hin as <- <-. auto.
  - intros [o [Ho [Hd [Hv N]]]]. exists o. split; auto.
    rewrite Hd, Hv, N. left. reflexivity.
Qed.

Variable net : network.

Lemma fetch_series_without_key (self : CorporateTaxDataFetcher)
    (series_id : string) (start_date end_date : option string) :
  truthy (api_key self) = false ->
  fetch_series net self series_id start_date end_date =
  ([], Raised (ValueError "API key not set. Get your free API key at: https://fred.stlouisfed.org/docs/api/api_key.html")).
Proof. intro H. unfold fetch_series. rewrite H. reflexivity. Qed.

Lemma fetch_series_unreachable (self : CorporateTaxDataFetcher)
    (series_id : string) (start_date end_date : option string) (detail : string) :
  truthy (api_key self) = true ->
  net (base_url self) (fetch_series_params self series_id start_date end_date)
    = Unreachable detail ->
  fetch_series net self series_id start_date end_date =
  ([HttpGet (base_url self)
            (fetch_series_params self series_id start_date end_date);
    PrintFetchError series_id (ConnectionError detail)],
   Returned NoColumns).
Proof.
  intros K N. unfold fetch_series, requests_get. rewrite K, N. reflexivity.
Qed.

Lemma fetch_series_error_status (self : CorporateTaxDataFetcher)
    (series_id : string) (start_date end_date : option string)
    (status : Z) (b : body) :
  truthy (api_key self) = true ->
  net (base_url self) (fetch_series_params self series_id start_date end_date)
    = Response status b ->
  is_error_status status = true ->
  fetch_series net self series_id start_date end_date =
  ([HttpGet (base_url self)
            (fetch_series_params self series_id start_date end_date);
    PrintFetchError series_id (HTTPError status)],
   Returned NoColumns).
Proof.
  intros K N S. unfold fetch_series, requests_get, raise_for_status.
  rewrite K, N. cbn. rewrite S. reflexivity.
Qed.

Lemma fetch_series_observations (self : CorporateTaxDataFetcher)
    (series_id : string) (start_date end_date : option string)
    (status : Z) (observations : list observation) :
  truthy (api_key self) = true ->
  net (base_url self) (fetch_series_params self series_id start_date end_date)
    = Response status (JSON (Some observations)) ->
  is_error_status status = false ->
  fetch_series net self series_id start_date end_date =
  ([HttpGet (base_url self)
            (fetch_series_params self series_id start_date end_date)],
   match frame_of_observations observations with
   | Ok df => Returned df
   | Raise e => Raised e
   end).
Proof.
  intros K N S. unfold fetch_series, requests_get, raise_for_status.
  rewrite K, N. cbn. rewrite S. cbn.
  destruct (frame_of_observations observations) as [df|e] eqn:F; cbn; auto.
  destruct (frame_raises _ _ F) as [-> | ->]; reflexivity.
Qed.

Lemma fetch_fred_series_unreachable (series_id : string)
    (key start_date : option string) (detail : string) :
  net fred_url (fetch_fred_series_params series_id key start_date)
    = Unreachable detail ->
  fetch_fred_series net series_id key start_date =
  ([HttpGet fred_url (fetch_fred_series_params series_id key start_date)],
   Raised (RequestException (ConnectionError detail))).
Proof. intro N. unfold fetch_fred_series, requests_get. rewrite N. reflexivity. Qed.

Lemma fetch_fred_series_response (series_id : string)
    (key start_date : option string) (status : Z) (b : body) :
  net fred_url (fetch_fred_series_params series_id key start_date)
    = Response status b ->
  fetch_fred_series net series_id key start_date =
  ([HttpGet fred_url (fetch_fred_series_params series_id key start_date)],
   match b with
   | NotJSON => Raised (RequestException JSONDecodeError)
   | JSON None => Raised (KeyError "observations")
   | JSON (Some observations) =>
       match frame_of_observations observations with
       | Ok df => Returned df
       | Raise e => Raised e
       end
   end).
Proof.
  intro N. unfold fetch_fred_series, requests_get. rewrite N.
  destruct b as [|[observations|]]; cbn; auto.
  destruct (frame_of_observations observations); reflexivity.
Qed.

Lemma fetch_fred_series_requests_first (series_id : string)
    (key start_date : option string) :
  exists rest,
    trace (fetch_fred_series net series_id key start_date) =
    HttpGet fred_url (fetch_fred_series_params series_id key start_date) :: rest.
Proof.
  destruct (net fred_url (fetch_fred_series_params series_id key start_date))
    as [detail|status b] eqn:N.
  - rewrite (fetch_fred_series_unreachable _ _ _ _ N). eexists. reflexivity.
  - rewrite (fetch_fred_series_response _ _ _ _ _ N). eexists. reflexivity.
Qed.

End Fetching.

(** C4, as the code has it: in [fetch_series] a request that fails in
    transport, or that is answered with a 4xx or 5xx status, is logged and
    answered with the empty frame, and no exception leaves the method;
    [fetch_fred_series] has no handler: a transport failure leaves it as
    the exception, nothing is logged, and the status of an answer is never
    looked at. *)
Theorem fetch_series_logs_and_returns_empty {C : Coercions} (net : network)
    (self : CorporateTaxDataFetcher) (series_id : string)
    (start_date end_date : option string) :
  truthy (api_key self) = true ->
  (forall detail,
      net (base_url self) (fetch_series_params self series_id start_date end_date)
        = Unreachable detail ->
      fetch_series net self series_id start_date end_date =
        ([HttpGet (base_url self)
                  (fetch_series_params self series_id start_date end_date);
          PrintFetchError series_id (ConnectionError detail)],
         Returned NoColumns)) /\
  (forall status b,
      net (base_url self) (fetch_series_params self series_id start_date end_date)
        = Response status b ->
      is_error_status status = true ->
      fetch_series net self series_id start_date end_date =
        ([HttpGet (base_url self)
                  (fetch_series_params self series_id start_date end_date);
          PrintFetchError series_id (HTTPError status)],
         Returned NoColumns)) /\
  (forall key detail,
      net fred_url (fetch_fred_series_params series_id key start_date)
        = Unreachable detail ->
      fetch_fred_series net series_id key start_date =
        ([HttpGet fred_url (fetch_fred_series_params series_id key start_date)],
         Raised (RequestException (ConnectionError detail)))) /\
  (forall key status b,
      net fred_url (fetch_fred_series_params series_id key start_date)
        = Response status b ->
      fetch_fred_series net series_id key start_date =
      fetch_fred_series (fun _ _ => Response 200 b) series_id key start_date).
Proof.
  intro K. repeat split.
  - intros detail N. apply fetch_series_unreachable; assumption.
  - intros status b N S. apply fetch_series_error_status with (b := b); assumption.
  - intros key detail N. apply fetch_fred_series_unreachable; assumption.
  - intros key status b N.
    rewrite (fetch_fred_series_response net _ _ _ _ _ N).
    rewrite (fetch_fred_series_response (fun _ _ => Response 200 b)
               series_id key start_date 200 b eq_refl).
    reflexivity.
Qed.

(** C4 as stated fails for [fetch_fred_series]: on an unreachable host the
    exception propagates instead of a logged, empty result. *)
Lemma fetch_fred_series_propagates_failure :
  ~ logged_and_empty "CP"
      (@fetch_fred_series fred unreachable "CP" (Some "key") (Some "1950-01-01")).
Proof. intros [H _]. vm_compute in H. discriminate. Qed.

Lemma fetch_series_logs_and_returns_empty_witness :
  @fetch_series fred unreachable (init (Some "key")) "CP" (Some "1950-01-01") None =
    ([HttpGet (base_url (init (Some "key")))
              (fetch_series_params (init (Some "key")) "CP" (Some "1950-01-01") None);
      PrintFetchError "CP" (ConnectionError "connection refused")],
     Returned NoColumns) /\
  @fetch_series fred bad_request (init (Some "key")) "CP" (Some "1950-01-01") None =
    ([HttpGet (base_url (init (Some "key")))
              (fetch_series_params (init (Some "key")) "CP" (Some "1950-01-01") None);
      PrintFetchError "CP" (HTTPError 400)],
     Returned NoColumns) /\
  @fetch_fred_series fred unreachable "CP" (Some "key") (Some "1950-01-01") =
    ([HttpGet fred_url
              (fetch_fred_series_params "CP" (Some "key") (Some "1950-01-01"))],
     Raised (RequestException (ConnectionError "connection refused"))).
Proof.
  split; [|split].
  - apply (proj1 (@fetch_series_logs_and_returns_empty fred unreachable
                    (init (Some "key")) "CP" (Some "1950-01-01") None eq_refl)).
    reflexivity.
  - apply (proj1 (proj2 (@fetch_series_logs_and_returns_empty fred bad_request
                    (init (Some "key")) "CP" (Some "1950-01-01") None eq_refl))
             400 (JSON None)); reflexivity.
  - apply (proj1 (proj2 (proj2 (@fetch_series_logs_and_returns_empty fred unreachable
                    (init (Some "key")) "CP" (Some "1950-01-01") None eq_refl)))).
    reflexivity.
Defined.

(** C5, as the code has it: [fetch_series] on a fetcher whose key is [None]
    or empty raises the ValueError that tells how to get a key, before any
    request and before any output; [fetch_fred_series] does not look at
    the key it is given: whatever it is, the request is sent first. *)
Theorem fetch_series_without_key_fails_fast {C : Coercions} (net : network)
    (self : CorporateTaxDataFetcher) (series_id : string)
    (start_date end_date : option string) :
  truthy (api_key self) = false ->
  fetch_series net self series_id start_date end_date =
    ([], Raised (ValueError "API key not set. Get your free API key at: https://fred.stlouisfed.org/docs/api/api_key.html")) /\
  fails_fast (fetch_series net self series_id start_date end_date) /\
  (forall key, exists rest,
      trace (fetch_fred_series net series_id key start_date) =
      HttpGet fred_url (fetch_fred_series_params series_id key start_date) :: rest).
Proof.
  intro K. pose proof (fetch_series_without_key net self series_id
                         start_date end_date K) as E.
  split; [exact E|]. split.
  - rewrite E. split; [eexists|]; reflexivity.
  - intro key. apply fetch_fred_series_requests_first.
Qed.

(** C5 as stated fails for [fetch_fred_series]: called with no key it sends
    the request. *)
Lemma fetch_fred_series_requests_without_key :
  ~ fails_fast (@fetch_fred_series fred bad_request "CP" None (Some "1950-01-01")).
Proof. intros [_ H]. vm_compute in H. discriminate. Qed.

Lemma fetch_series_without_key_fails_fast_witness :
  fails_fast (@fetch_series fred sentinel_response (init None) "CP"
                (Some "1950-01-01") None) /\
  fails_fast (@fetch_series fred sentinel_response (init (Some "")) "CP"
                (Some "1950-01-01") None).
Proof.
  split.
  - apply (@fetch_series_without_key_fails_fast fred sentinel_response
             (init None) "CP" (Some "1950-01-01") None eq_refl).
  - apply (@fetch_series_without_key_fails_fast fred sentinel_response
             (init (Some "")) "CP" (Some "1950-01-01") None eq_refl).
Defined.

(** C6: of the observations of a response, the frame that either fetch
    returns keeps exactly those whose value coerces to a number (and whose
    date is a timestamp), in the order of the response: a row whose value
    coerces to NaN is dropped.  With the API's strings, the response
    [("2020-01-01","5.0"), ("2020-04-01",".")] gives exactly one row. *)
Theorem uncoercible_rows_are_dropped :
  (forall (C : Coercions) (net : network) (self : CorporateTaxDataFetcher)
          (series_id : string) (start_date end_date key : option string)
          (status : Z) (observations : list observation),
      truthy (api_key self) = true ->
      is_error_status status = false ->
      net (base_url self) (fetch_series_params self series_id start_date end_date)
        = Response status (JSON (Some observations)) ->
      net fred_url (fetch_fred_series_params series_id key start_date)
        = Response status (JSON (Some observations)) ->
      observations <> [] ->
      (forall o, In o observations -> to_datetime (date_str o) <> Unparseable) ->
      result_of (fetch_series net self series_id start_date end_date) =
        Returned (ValueFrame (surviving observations)) /\
      result_of (fetch_fred_series net series_id key start_date) =
        Returned (ValueFrame (surviving observations)) /\
      (forall d v,
          In (d, v) (surviving observations) <->
          exists o, In o observations /\
                    to_datetime (date_str o) = Timestamp d /\
                    to_numeric (value_str o) = v /\
                    PrimFloat.is_nan v = false)) /\
  PrimFloat.is_nan (decimal ".") = true /\
  rows_of (@fetch_series fred sentinel_response (init (Some "key")) "CP"
             (Some "1950-01-01") None) = [(mkdate 2020 1 1, 5%float)] /\
  rows_of (@fetch_fred_series fred sentinel_response "CP" (Some "key")
             (Some "1950-01-01")) = [(mkdate 2020 1 1, 5%float)].
Proof.
  split; [|repeat split; vm_compute; reflexivity].
  intros C net self series_id start_date end_date key status observations
         K S N N' Hne Hp.
  pose proof (frame_of_parsed observations Hne Hp) as F.
  split; [|split].
  - rewrite (fetch_series_observations net _ _ _ _ _ _ K N S), F. reflexivity.
  - rewrite (fetch_fred_series_response net _ _ _ _ _ N'), F. reflexivity.
  - apply surviving_In.
Qed.

Lemma uncoercible_rows_are_dropped_witness :
  result_of (@fetch_series fred sentinel_response (init (Some "key")) "CP"
               (Some "1950-01-01") None) =
    Returned (ValueFrame
                (@surviving fred [mkobs "2020-01-01" "5.0"; mkobs "2020-04-01" "."])).
Proof.
  refine (proj1 (proj1 uncoercible_rows_are_dropped fred sentinel_response
                   (init (Some "key")) "CP" (Some "1950-01-01") None (Some "key")
                   200 [mkobs "2020-01-01" "5.0"; mkobs "2020-04-01" "."]
                   eq_refl eq_refl eq_refl eq_refl _ _)).
  - discriminate.
  - intros o [<-|[<-|[]]]; vm_compute; discriminate.
Defined.

(* ------------------------------------------------------------------ *)
(** ** Row order *)

Lemma sorted_NoDup (i : Index) : StronglySorted date_lt i -> NoDup i.
Proof.
  induction 1 as [|d rest Hs IH Hf]; constructor; auto.
  intro Hin. rewrite Forall_forall in Hf.
  apply (date_lt_irrefl d), Hf, Hin.
Qed.

Lemma sorted_filter (f : date -> bool) (i : Index) :
  StronglySorted date_lt i -> StronglySorted date_lt (filter f i).
Proof.
  induction 1 as [|d rest Hs IH Hf]; simpl; [constructor|].
  destruct (f d); auto. constructor; auto.
  rewrite Forall_forall in *. intros x Hx. apply filter_In in Hx. apply Hf, Hx.
Qed.

Lemma rate_rows_ascending (a b : Series) :
  ascending a -> ascending (rate_rows a b).
Proof.
  unfold ascending. intro H. rewrite rate_rows_index.
  rewrite intersection_unique_left by (apply sorted_NoDup, H).
  apply sorted_filter, H.
Qed.

Lemma resample_ascending (s : Series) : ascending (resample_A_sum_rows s).
Proof.
  destruct (resample_bins s) as [lo [hi [E _]]]. rewrite E.
  apply years_ascending.
Qed.

(** C9, as the code has it: both fetches ask the API for ascending order
    and keep the surviving observations in the order of the response,
    without sorting or removing repeated dates, so a fetched series ascends
    when the response does; the rate series keeps the order of its first
    input over the shared dates, so it ascends, without repeated dates,
    when the first input does and the second repeats no date; a resampled
    series always ascends. *)
Theorem row_order_is_inherited :
  (forall (C : Coercions) (net : network) (self : CorporateTaxDataFetcher)
          (series_id : string) (start_date end_date key : option string)
          (status : Z) (observations : list observation),
      In ("sort_order", Some "asc")
         (fetch_series_params self series_id start_date end_date) /\
      In ("sort_order", Some "asc")
         (fetch_fred_series_params series_id key start_date) /\
      (truthy (api_key self) = true ->
       is_error_status status = false ->
       net (base_url self) (fetch_series_params self series_id start_date end_date)
         = Response status (JSON (Some observations)) ->
       net fred_url (fetch_fred_series_params series_id key start_date)
         = Response status (JSON (Some observations)) ->
       observations <> [] ->
       (forall o, In o observations -> to_datetime (date_str o) <> Unparseable) ->
       rows_of (fetch_series net self series_id start_date end_date) =
         surviving observations /\
       rows_of (fetch_fred_series net series_id key start_date) =
         surviving observations /\
       (ascending (surviving observations) ->
        ascending (rows_of (fetch_series net self series_id start_date end_date)) /\
        ascending (rows_of (fetch_fred_series net series_id key start_date))))) /\
  (forall A B : Series,
      ascending A -> NoDup (index B) ->
      exists rate,
        calculate_effective_tax_rate A B = Ok rate /\
        calculate_effective_rate A B = Ok rate /\
        index rate = filter (fun d => mem d (index B)) (index A) /\
        ascending rate) /\
  (forall s : Series, ascending (resample_A_sum_rows s)).
Proof.
  split; [|split].
  - intros C net self series_id start_date end_date key status observations.
    split; [|split].
    + unfold fetch_series_params. simpl. auto.
    + unfold fetch_fred_series_params. simpl. auto 6.
    + intros K S N N' Hne Hp.
      pose proof (frame_of_parsed observations Hne Hp) as F.
      assert (R1 : rows_of (fetch_series net self series_id start_date end_date)
                   = surviving observations).
      { unfold rows_of.
        rewrite (fetch_series_observations net _ _ _ _ _ _ K N S), F.
        reflexivity. }
      assert (R2 : rows_of (fetch_fred_series net series_id key start_date)
                   = surviving observations).
      { unfold rows_of.
        rewrite (fetch_fred_series_response net _ _ _ _ _ N'), F.
        reflexivity. }
      rewrite R1, R2. auto.
  - intros A B HA HB. exists (rate_rows A B).
    pose proof (sorted_NoDup _ HA) as NA.
    destruct (calculate_unique A B NA HB) as [E1 E2].
    repeat split; auto.
    + rewrite rate_rows_index. apply intersection_unique_left, NA.
    + apply rate_rows_ascending, HA.
  - apply resample_ascending.
Qed.

(** C9 as stated fails: a response that lists its observations latest first
    is fetched in that order. *)
Lemma fetched_series_keeps_descending_order :
  ~ ascending (rows_of (@fetch_series fred descending_response
                          (init (Some "key")) "CP" (Some "1950-01-01") None)).
Proof.
  intro H. vm_compute in H.
  inversion H as [|d rest Hs Hf]; subst.
  inversion Hf as [|x l Hlt _]; subst.
  vm_compute in Hlt. discriminate.
Qed.

Lemma row_order_is_inherited_witness :
  exists rate,
    calculate_effective_tax_rate tax_2020 profit_2020 = Ok rate /\
    calculate_effective_rate tax_2020 profit_2020 = Ok rate /\
    index rate = filter (fun d => mem d (index profit_2020)) (index tax_2020) /\
    ascending rate.
Proof.
  apply (proj1 (proj2 row_order_is_inherited) tax_2020 profit_2020).
  - repeat constructor; vm_compute; reflexivity.
  - repeat constructor. simpl. tauto.
Defined.

Lemma rate_domain_is_intersection_witness :
  ((forall d, In d (index [(mkdate 2020 1 1, 10%float)]) <->
              In d (index tax_2020) /\ In d (index profit_2020)) /\
   (List.length [(mkdate 2020 1 1, 10%float)] <=
      Nat.min (List.length tax_2020) (List.length profit_2020))%nat) /\
  exists rate,
    calculate_effective_tax_rate tax_2020 profit_2020 = Ok rate /\
    calculate_effective_rate tax_2020 profit_2020 = Ok rate.
Proof.
  split.
  - apply (proj1 (rate_domain_is_intersection tax_2020 profit_2020)).
    left. reflexivity.
  - apply (proj2 (rate_domain_is_intersection tax_2020 profit_2020)).
    + apply is_unique_NoDup. reflexivity.
    + apply is_unique_NoDup. reflexivity.
Defined.

Lemma rate_value_at_shared_date_witness :
  get (mkdate 2020 1 1) [(mkdate 2020 1 1, 10%float)] =
    Some (100 / 1000 * 100)%float.
Proof.
  apply (rate_value_at_shared_date tax_2020 profit_2020
           [(mkdate 2020 1 1, 10%float)] (mkdate 2020 1 1) 100%float 1000%float).
  - left. reflexivity.
  - reflexivity.
  - reflexivity.
Defined.

Lemma zero_denominator_is_not_guarded_witness :
  exists rate,
    calculate_effective_tax_rate tax_2020 profit_zero = Ok rate /\
    calculate_effective_rate tax_2020 profit_zero = Ok rate /\
    In (mkdate 2020 1 1) (index rate) /\
    get (mkdate 2020 1 1) rate = Some (100 / 0 * 100)%float /\
    (PrimFloat.eqb 0 0 = true ->
     PrimFloat.is_nan (100 / 0 * 100)%float = true \/
     PrimFloat.is_infinity (100 / 0 * 100)%float = true).
Proof.
  apply (zero_denominator_is_not_guarded tax_2020 profit_zero
           (mkdate 2020 1 1) 100%float 0%float).
  - apply is_unique_NoDup. reflexivity.
  - apply is_unique_NoDup. reflexivity.
  - reflexivity.
  - reflexivity.
Defined.

(* ------------------------------------------------------------------ *)
(** ** Further properties of the rate calculation *)

(** X1: the method [calculate_effective_tax_rate] of the class and the
    function [calculate_effective_rate] of the simple script compute the
    same thing on every pair of inputs, errors included. *)
Theorem rate_functions_agree (A B : Series) :
  calculate_effective_tax_rate A B = calculate_effective_rate A B.
Proof.
  rewrite calculate_effective_tax_rate_spec, calculate_effective_rate_spec.
  reflexivity.
Qed.


(** X3: every row of a returned rate series comes from one row of each
    input at the same date: alignment never fills in a value. *)
Theorem rate_rows_come_from_both_inputs (A B rate : Series) (d : date) (v : float) :
  calculate_effective_tax_rate A B = Ok rate \/
  calculate_effective_rate A B = Ok rate ->
  In (d, v) rate ->
  exists a b, In (d, a) A /\ In (d, b) B /\ v = (a / b * 100)%float.
Proof.
  intros H Hin. apply calculate_returned in H as [-> _].
  unfold rate_rows in Hin. apply in_map_iff in Hin as [d' [E Hd]].
  injection E as -> <-. apply intersection_In in Hd as [HA HB].
  apply get_Some_index in HA as [a Ha]. apply get_Some_index in HB as [b Hb].
  exists a, b. rewrite (value_at_get _ _ _ Ha), (value_at_get _ _ _ Hb).
  auto using get_In.
Qed.

Lemma rate_rows_come_from_both_inputs_witness :
  exists a b, In (mkdate 2020 1 1, a) tax_2020 /\
              In (mkdate 2020 1 1, b) profit_2020 /\
              10%float = (a / b * 100)%float.
Proof.
  apply (rate_rows_come_from_both_inputs tax_2020 profit_2020
           [(mkdate 2020 1 1, 10%float)]).
  - left. reflexivity.
  - left. reflexivity.
Defined.

Lemma get_of_row (s : Series) (d : date) (v : float) :
  NoDup (index s) -> In (d, v) s -> get d s = Some v.
Proof.
  induction s as [|[d' x] rest IH]; simpl; [tauto|].
  intros ND Hin. inversion ND as [|? ? Hd ND']; subst.
  destruct Hin as [E|Hin].
  - injection E as -> ->. rewrite date_eqb_refl. reflexivity.
  - destruct (date_eqb d d') eqn:E; auto.
    apply date_eqb_eq in E. subst d'. exfalso. apply Hd.
    apply in_map_iff. exists (d, v). auto.
Qed.

Lemma value_at_perm (b b' : Series) (d : date) :
  Permutation b b' -> NoDup (index b) -> In d (index b) ->
  value_at b d = value_at b' d.
Proof.
  intros P ND Hd. apply get_Some_index in Hd as [v Hv].
  rewrite (value_at_get _ _ _ Hv). symmetry. apply value_at_get.
  apply get_of_row.
  - apply (Permutation_NoDup (Permutation_map fst P)), ND.
  - apply (Permutation_in _ P), get_In, Hv.
Qed.

(** X4: the result does not depend on the order of the rows of the second
    series: dates and order are those of the first. *)
Theorem rate_ignores_row_order_of_second (A B B' : Series) :
  Permutation B B' ->
  calculate_effective_tax_rate A B = calculate_effective_tax_rate A B'.
Proof.
  intro P. rewrite !calculate_effective_tax_rate_spec.
  pose proof (Permutation_map fst P) as Pi. fold (index B) (index B') in Pi.
  assert (U : is_unique (index B) = is_unique (index B')).
  { destruct (is_unique (index B)) eqn:E1, (is_unique (index B')) eqn:E2; auto.
    - apply is_unique_NoDup in E1.
      apply (Permutation_NoDup Pi), is_unique_NoDup in E1. congruence.
    - apply is_unique_NoDup in E2.
      apply (Permutation_NoDup (Permutation_sym Pi)), is_unique_NoDup in E2.
      congruence. }
  rewrite <- U.
  destruct (is_unique (index A)); simpl; auto.
  destruct (is_unique (index B)) eqn:E; auto.
  apply is_unique_NoDup in E. f_equal. unfold rate_rows.
  assert (M : forall d, mem d (index B) = mem d (index B')).
  { intro d. destruct (mem d (index B)) eqn:M1, (mem d (index B')) eqn:M2; auto.
    - apply mem_In in M1. apply (Permutation_in _ Pi), mem_In in M1. congruence.
    - apply mem_In in M2.
      apply (Permutation_in _ (Permutation_sym Pi)), mem_In in M2. congruence. }
  unfold intersection. rewrite (filter_ext _ _ M).
  apply map_ext_in. intros d Hd. apply filter_In in Hd as [_ Hd].
  rewrite <- M in Hd. apply mem_In in Hd.
  rewrite (value_at_perm B B' d P E Hd). reflexivity.
Qed.

Lemma rate_ignores_row_order_of_second_witness :
  calculate_effective_tax_rate tax_2020 profit_shuffled =
  calculate_effective_tax_rate tax_2020 profit_ordered.
Proof.
  apply (rate_ignores_row_order_of_second tax_2020 profit_shuffled profit_ordered).
  apply perm_swap.
Defined.

(** X5: two series without repeated dates that share no date (one of them
    empty, for instance) give the empty rate series, not an error. *)
Theorem rate_without_shared_date_is_empty (A B : Series) :
  NoDup (index A) -> NoDup (index B) ->
  (forall d, In d (index A) -> ~ In d (index B)) ->
  calculate_effective_tax_rate A B = Ok [] /\
  calculate_effective_rate A B = Ok [].
Proof.
  intros HA HB Hd. destruct (calculate_unique A B HA HB) as [E1 E2].
  assert (E : rate_rows A B = []).
  { unfold rate_rows.
    destruct (intersection (index A) (index B)) as [|d rest] eqn:I; auto.
    exfalso. assert (H : In d (intersection (index A) (index B))).
    { rewrite I. left. reflexivity. }
    apply intersection_In in H as [H1 H2]. apply (Hd d); assumption. }
  rewrite E1, E2, E. auto.
Qed.

Lemma rate_without_shared_date_is_empty_witness :
  calculate_effective_tax_rate [] profit_2020 = Ok [] /\
  calculate_effective_rate [] profit_2020 = Ok [].
Proof.
  apply (rate_without_shared_date_is_empty [] profit_2020).
  - constructor.
  - apply is_unique_NoDup. reflexivity.
  - intros d [].
Defined.


(* ------------------------------------------------------------------ *)
(** ** Further properties of the two fetches *)

(** Every way [fetch_series] can go once a key is set. *)
Lemma fetch_series_run {C : Coercions} (net : network)
    (self : CorporateTaxDataFetcher) (series_id : string)
    (start_date end_date : option string) :
  truthy (api_key self) = true ->
  let request :=
    HttpGet (base_url self)
            (fetch_series_params self series_id start_date end_date) in
  fetch_series net self series_id start_date end_date =
  match net (base_url self)
            (fetch_series_params self series_id start_date end_date) with
  | Unreachable detail =>
      ([request; PrintFetchError series_id (ConnectionError detail)],
       Returned NoColumns)
  | Response status b =>
      if is_error_status status then
        ([request; PrintFetchError series_id (HTTPError status)],
         Returned NoColumns)
      else
        match b with
        | NotJSON =>
            ([request; PrintFetchError series_id JSONDecodeError],
             Returned NoColumns)
        | JSON None => ([request], Raised (KeyError "observations"))
        | JSON (Some observations) =>
            ([request],
             match frame_of_observations observations with
             | Ok df => Returned df
             | Raise e => Raised e
             end)
        end
  end.
Proof.
  intros K request.
  destruct (net (base_url self)
              (fetch_series_params self series_id start_date end_date))
    as [detail|status b] eqn:N.
  - apply fetch_series_unreachable; assumption.
  - destruct (is_error_status status) eqn:S.
    + apply fetch_series_error_status with (b := b); assumption.
    + destruct b as [|[observations|]].
      * unfold fetch_series, requests_get, raise_for_status.
        rewrite K, N. cbn. rewrite S. reflexivity.
      * apply fetch_series_observations with (status := status); assumption.
      * unfold fetch_series, requests_get, raise_for_status.
        rewrite K, N. cbn. rewrite S. reflexivity.
Qed.

(** X6: a fetch sends exactly one request: [fetch_series] once its key is
    set, [fetch_fred_series] always; neither tries again after a failure. *)
Theorem fetch_sends_one_request {C : Coercions} (net : network)
    (self : CorporateTaxDataFetcher) (series_id : string)
    (start_date end_date key : option string) :
  (truthy (api_key self) = true ->
   requests (trace (fetch_series net self series_id start_date end_date)) =
     [HttpGet (base_url self)
              (fetch_series_params self series_id start_date end_date)]) /\
  requests (trace (fetch_fred_series net series_id key start_date)) =
    [HttpGet fred_url (fetch_fred_series_params series_id key start_date)].
Proof.
  split.
  - intro K. rewrite (fetch_series_run net self _ _ _ K).
    destruct (net (base_url self)
                (fetch_series_params self series_id start_date end_date))
      as [detail|status [|[observations|]]];
      try destruct (is_error_status status); reflexivity.
  - destruct (net fred_url (fetch_fred_series_params series_id key start_date))
      as [detail|status b] eqn:N.
    + rewrite (fetch_fred_series_unreachable net _ _ _ _ N). reflexivity.
    + rewrite (fetch_fred_series_response net _ _ _ _ _ N). reflexivity.
Qed.

Lemma fetch_sends_one_request_witness :
  requests (trace (@fetch_series fred unreachable (init (Some "key")) "CP"
                     (Some "1950-01-01") None)) =
    [HttpGet (base_url (init (Some "key")))
             (fetch_series_params (init (Some "key")) "CP" (Some "1950-01-01") None)].
Proof.
  apply (proj1 (@fetch_sends_one_request fred unreachable (init (Some "key"))
                  "CP" (Some "1950-01-01") None None)).
  reflexivity.
Defined.

(** X7: no exception of the requests library ever leaves [fetch_series],
    whatever the key, the arguments and the answer of the network. *)
Theorem fetch_series_never_raises_request_exception {C : Coercions}
    (net : network) (self : CorporateTaxDataFetcher) (series_id : string)
    (start_date end_date : option string) (e : request_failure) :
  result_of (fetch_series net self series_id start_date end_date) <>
    Raised (RequestException e).
Proof.
  destruct (truthy (api_key self)) eqn:K.
  - rewrite (fetch_series_run net self _ _ _ K).
    destruct (net (base_url self)
                (fetch_series_params self series_id start_date end_date))
      as [detail|status [|[observations|]]];
      try destruct (is_error_status status); try discriminate.
    destruct (frame_of_observations observations) as [df|e'] eqn:F;
      [discriminate|].
    destruct (frame_raises _ _ F) as [-> | ->]; discriminate.
  - rewrite (fetch_series_without_key net self _ _ _ K). discriminate.
Qed.

(** X8: a series that a fetch returns holds no NaN, and each of its rows is
    an observation of the response. *)
Theorem fetched_series_has_no_nan {C : Coercions} (net : network)
    (self : CorporateTaxDataFetcher) (series_id : string)
    (start_date end_date key : option string) (rows : Series) :
  result_of (fetch_series net self series_id start_date end_date) =
    Returned (ValueFrame rows) \/
  result_of (fetch_fred_series net series_id key start_date) =
    Returned (ValueFrame rows) ->
  Forall (fun r => PrimFloat.is_nan (snd r) = false) rows.
Proof.
  assert (G : forall observations,
             match frame_of_observations observations with
             | Ok df => Returned df
             | Raise e => Raised e
             end = Returned (ValueFrame rows) ->
             Forall (fun r => PrimFloat.is_nan (snd r) = false) rows).
  { intros observations H.
    destruct (frame_of_observations observations) as [df|e'] eqn:F;
      [|discriminate].
    injection H as ->. apply frame_returned in F. injection F as ->.
    apply Forall_forall. intros [d v] Hin.
    apply surviving_In in Hin as [o [_ [_ [_ N]]]]. exact N. }
  intros [H|H].
  - destruct (truthy (api_key self)) eqn:K.
    + rewrite (fetch_series_run net self _ _ _ K) in H.
      destruct (net (base_url self)
                  (fetch_series_params self series_id start_date end_date))
        as [detail|status [|[observations|]]];
        try destruct (is_error_status status); try discriminate.
      apply (G observations), H.
    + rewrite (fetch_series_without_key net self _ _ _ K) in H. discriminate.
  - destruct (net fred_url (fetch_fred_series_params series_id key start_date))
      as [detail|status b] eqn:N.
    + rewrite (fetch_fred_series_unreachable net _ _ _ _ N) in H. discriminate.
    + rewrite (fetch_fred_series_response net _ _ _ _ _ N) in H.
      destruct b as [|[observations|]]; try discriminate.
      apply (G observations), H.
Qed.

Lemma fetched_series_has_no_nan_witness :
  Forall (fun r => PrimFloat.is_nan (snd r) = false) [(mkdate 2020 1 1, 5%float)].
Proof.
  apply (@fetched_series_has_no_nan fred sentinel_response (init (Some "key"))
           "CP" (Some "1950-01-01") None None).
  left. reflexivity.
Defined.

(** X9: an answer without usable observations is not turned into an empty
    series: a JSON object without the key "observations", or with an empty
    list under it, makes [fetch_series] (on a status that is no error) and
    [fetch_fred_series] (on any status) raise KeyError. *)
Theorem answer_without_observations_raises_key_error {C : Coercions}
    (net : network) (self : CorporateTaxDataFetcher) (series_id : string)
    (start_date end_date key : option string) (status : Z) :
  (truthy (api_key self) = true ->
   is_error_status status = false ->
   (net (base_url self) (fetch_series_params self series_id start_date end_date)
      = Response status (JSON None) ->
    result_of (fetch_series net self series_id start_date end_date) =
      Raised (KeyError "observations")) /\
   (net (base_url self) (fetch_series_params self series_id start_date end_date)
      = Response status (JSON (Some [])) ->
    result_of (fetch_series net self series_id start_date end_date) =
      Raised (KeyError "date"))) /\
  (net fred_url (fetch_fred_series_params series_id key start_date)
     = Response status (JSON None) ->
   result_of (fetch_fred_series net series_id key start_date) =
     Raised (KeyError "observations")) /\
  (net fred_url (fetch_fred_series_params series_id key start_date)
     = Response status (JSON (Some [])) ->
   result_of (fetch_fred_series net series_id key start_date) =
     Raised (KeyError "date")).
Proof.
  split; [|split].
  - intros K S. split; intro N;
      rewrite (fetch_series_run net self _ _ _ K), N, S; reflexivity.
  - intro N. rewrite (fetch_fred_series_response net _ _ _ _ _ N). reflexivity.
  - intro N. rewrite (fetch_fred_series_response net _ _ _ _ _ N). reflexivity.
Qed.

Lemma answer_without_observations_raises_key_error_witness :
  result_of (@fetch_series fred no_observations (init (Some "key")) "CP"
               (Some "1950-01-01") None) = Raised (KeyError "date") /\
  result_of (@fetch_fred_series fred bad_request "CP" None (Some "1950-01-01")) =
    Raised (KeyError "observations").
Proof.
  split.
  - apply (proj1 (@answer_without_observations_raises_key_error fred
                    no_observations (init (Some "key")) "CP"
                    (Some "1950-01-01") None None 200) eq_refl eq_refl).
    reflexivity.
  - apply (proj1 (proj2 (@answer_without_observations_raises_key_error fred
                    bad_request (init (Some "key")) "CP"
                    (Some "1950-01-01") None None 400))).
    reflexivity.
Defined.

Lemma to_datetime_column_unparseable {C : Coercions} (col : list string) :
  (exists s, In s col /\ to_datetime s = Unparseable) ->
  to_datetime_column col = Raise (ValueError "Unknown datetime string format").
Proof.
  induction col as [|s rest IH]; intros [x [Hin Hx]]; [destruct Hin|].
  simpl. destruct Hin as [->|Hin].
  - rewrite Hx. reflexivity.
  - destruct (to_datetime s); auto; rewrite IH by eauto; reflexivity.
Qed.

(** X10: one date string that cannot be read as a date makes the whole
    fetch raise ValueError: no row is returned, and the handler of
    [fetch_series] does not catch it. *)
Theorem unreadable_date_raises_value_error {C : Coercions} (net : network)
    (self : CorporateTaxDataFetcher) (series_id : string)
    (start_date end_date key : option string) (status : Z)
    (observations : list observation) (o : observation) :
  In o observations ->
  to_datetime (date_str o) = Unparseable ->
  (truthy (api_key self) = true ->
   is_error_status status = false ->
   net (base_url self) (fetch_series_params self series_id start_date end_date)
     = Response status (JSON (Some observations)) ->
   result_of (fetch_series net self series_id start_date end_date) =
     Raised (ValueError "Unknown datetime string format")) /\
  (net fred_url (fetch_fred_series_params series_id key start_date)
     = Response status (JSON (Some observations)) ->
   result_of (fetch_fred_series net series_id key start_date) =
     Raised (ValueError "Unknown datetime string format")).
Proof.
  intros Hin Ho.
  assert (F : frame_of_observations observations =
              Raise (ValueError "Unknown datetime string format")).
  { unfold frame_of_observations. destruct observations as [|o' rest];
      [destruct Hin|].
    rewrite to_datetime_column_unparseable; [reflexivity|].
    exists (date_str o). split; auto. apply in_map, Hin. }
  split.
  - intros K S N. rewrite (fetch_series_run net self _ _ _ K), N, S, F.
    reflexivity.
  - intro N. rewrite (fetch_fred_series_response net _ _ _ _ _ N), F.
    reflexivity.
Qed.

Lemma unreadable_date_raises_value_error_witness :
  result_of (@fetch_series fred unreadable_date (init (Some "key")) "CP"
               (Some "1950-01-01") None) =
    Raised (ValueError "Unknown datetime string format").
Proof.
  apply (proj1 (@unreadable_date_raises_value_error fred unreadable_date
                  (init (Some "key")) "CP" (Some "1950-01-01") None None 200
                  [mkobs "first quarter" "5.0"] (mkobs "first quarter" "5.0")
                  (or_introl eq_refl) eq_refl)).
  - reflexivity.
  - reflexivity.
  - reflexivity.
Defined.

(** X11: when the response has observations and none of them has a value,
    the fetch returns a frame without rows (which [empty] accepts as
    empty): no error is raised and nothing is logged. *)
Theorem observations_without_values_give_empty_frame {C : Coercions}
    (net : network) (self : CorporateTaxDataFetcher) (series_id : string)
    (start_date end_date : option string) (status : Z)
    (observations : list observation) :
  truthy (api_key self) = true ->
  is_error_status status = false ->
  net (base_url self) (fetch_series_params self series_id start_date end_date)
    = Response status (JSON (Some observations)) ->
  observations <> [] ->
  (forall o, In o observations ->
             to_datetime (date_str o) <> Unparseable /\
             PrimFloat.is_nan (to_numeric (value_str o)) = true) ->
  fetch_series net self series_id start_date end_date =
    ([HttpGet (base_url self)
              (fetch_series_params self series_id start_date end_date)],
     Returned (ValueFrame [])) /\
  empty (ValueFrame []) = true.
Proof.
  intros K S N Hne Hall. split; [|reflexivity].
  rewrite (fetch_series_run net self _ _ _ K), N, S.
  rewrite frame_of_parsed; auto; [|intros o Ho; apply (Hall o Ho)].
  assert (E : surviving observations = []).
  { unfold surviving. clear N Hne.
    induction observations as [|o rest IH]; auto. simpl.
    destruct (Hall o (or_introl eq_refl)) as [_ Hn]. rewrite Hn.
    rewrite IH; [|intros o' Ho'; apply Hall; right; exact Ho'].
    destruct (to_datetime (date_str o)); reflexivity. }
  rewrite E. reflexivity.
Qed.

Lemma observations_without_values_give_empty_frame_witness :
  @fetch_series fred all_missing (init (Some "key")) "CP" (Some "1950-01-01") None =
    ([HttpGet (base_url (init (Some "key")))
              (fetch_series_params (init (Some "key")) "CP" (Some "1950-01-01") None)],
     Returned (ValueFrame [])).
Proof.
  apply (@observations_without_values_give_empty_frame fred all_missing
           (init (Some "key")) "CP" (Some "1950-01-01") None 200
           [mkobs "2020-01-01" "."; mkobs "2020-04-01" "."]).
  - reflexivity.
  - reflexivity.
  - reflexivity.
  - discriminate.
  - intros o [<-|[<-|[]]]; split; vm_compute; try discriminate; reflexivity.
Defined.

(* ------------------------------------------------------------------ *)
(** ** Further properties of the whole retrieval, the report and the export *)

Ltac run_fetch_all :=
  cbn [bind emit ret lift raise trace result_of fst snd app negb andb
       empty getitem_value resample_A_sum result_bind].


Lemma fetch_series_requested {C : Coercions} (net : network)
    (self : CorporateTaxDataFetcher) (series_id : string)
    (start_date end_date : option string) :
  requested_series (trace (fetch_series net self series_id start_date end_date)) =
  if truthy (api_key self) then [Some series_id] else [].
Proof.
  destruct (truthy (api_key self)) eqn:K.
  - rewrite (fetch_series_run net self _ _ _ K).
    destruct (net (base_url self)
                (fetch_series_params self series_id start_date end_date))
      as [detail|status [|[observations|]]];
      try destruct (is_error_status status); reflexivity.
  - rewrite (fetch_series_without_key net self _ _ _ K). reflexivity.
Qed.

(** X13: whenever [fetch_all_corporate_tax_data] returns its dictionary, it
    has requested exactly four series, in this order: the quarterly
    receipts, the quarterly profits before tax, the quarterly profits after
    tax and the annual receipts. *)
Theorem fetch_all_requests_four_series {C : Coercions} (net : network)
    (self : CorporateTaxDataFetcher) (start_date : option string) (data : data_dict) :
  result_of (fetch_all_corporate_tax_data net self start_date) = Returned data ->
  requested_series (trace (fetch_all_corporate_tax_data net self start_date)) =
    [Some "B075RC1Q027SBEA"; Some "A053RC1Q027SBEA"; Some "CP"; Some "FCTAX"].
Proof.
  intro H. unfold fetch_all_corporate_tax_data in *.
  pose proof (fetch_series_requested net self "B075RC1Q027SBEA" start_date None) as R1.
  pose proof (fetch_series_requested net self "A053RC1Q027SBEA" start_date None) as R2.
  pose proof (fetch_series_requested net self "CP" start_date None) as R3.
  pose proof (fetch_series_requested net self "FCTAX" start_date None) as R4.
  destruct (truthy (api_key self)) eqn:K.
  2:{ rewrite (fetch_series_without_key net self _ _ _ K) in H. discriminate H. }
  destruct (fetch_series net self "B075RC1Q027SBEA" start_date None) as [t1 [tq|e1]];
    [|discriminate H].
  destruct (fetch_series net self "A053RC1Q027SBEA" start_date None) as [t2 [pq|e2]];
    [|discriminate H].
  destruct (fetch_series net self "CP" start_date None) as [t3 [cp|e3]];
    [|discriminate H].
  destruct (fetch_series net self "FCTAX" start_date None) as [t4 [fa|e4]].
  2:{ exfalso. clear - H.
      destruct tq as [|[|? ?]], pq as [|[|? ?]];
        cbn [bind emit ret lift raise trace result_of fst snd app negb andb
             empty getitem_value] in H; try discriminate H;
        destruct (calculate_effective_tax_rate _ _); discriminate H. }
  unfold trace in *. cbn [fst] in *.
  destruct tq as [|[|r1 s1]], pq as [|[|r2 s2]];
    cbn [bind emit ret lift raise trace result_of fst snd app negb andb
         empty getitem_value resample_A_sum] in *;
    try discriminate H.
  all: try (destruct (calculate_effective_tax_rate _ _);
    cbn [bind emit ret lift raise trace result_of fst snd app negb andb
         empty getitem_value resample_A_sum] in *;
    try discriminate H).
  all: try (destruct (calculate_effective_tax_rate _ _);
    cbn [bind emit ret lift raise trace result_of fst snd app negb andb
         empty getitem_value resample_A_sum] in *;
    try discriminate H).
  all: unfold requested_series in *;
    repeat (first [rewrite flat_map_app | rewrite R1 | rewrite R2
                  | rewrite R3 | rewrite R4 | progress cbn [flat_map app]]).
  all: try reflexivity.
Qed.

(** X12: on a fetcher without a key, [fetch_all_corporate_tax_data] prints
    its first three progress lines and then raises the ValueError of the
    first fetch: no request is sent and no dictionary is returned. *)
Theorem fetch_all_without_key_stops_before_any_request {C : Coercions} (net : network)
    (self : CorporateTaxDataFetcher) (start_date : option string) :
  truthy (api_key self) = false ->
  fetch_all_corporate_tax_data net self start_date =
    ([Print "Fetching corporate tax data from FRED...";
      Print (String.append nl "Fetching quarterly data:");
      Print "- Federal tax receipts on corporate income..."],
     Raised (ValueError "API key not set. Get your free API key at: https://fred.stlouisfed.org/docs/api/api_key.html")).
Proof.
  intro K. unfold fetch_all_corporate_tax_data.
  rewrite (fetch_series_without_key net self _ _ _ K). reflexivity.
Qed.

(** X14: when the fetch of the quarterly receipts has failed (and was
    answered by the empty frame) while the quarterly profits arrived with at
    least one row, [fetch_all_corporate_tax_data] raises TypeError on
    resampling the receipts: only the profits are tested for emptiness
    before the conversion to annual data, and the dictionary is lost. *)
Theorem fetch_all_fails_when_only_profits_arrive {C : Coercions} (net : network)
    (self : CorporateTaxDataFetcher) (start_date : option string)
    (t1 t2 t3 t4 : list event) (profits : Series) (cp fa : DataFrame) :
  fetch_series net self "B075RC1Q027SBEA" start_date None = (t1, Returned NoColumns) ->
  fetch_series net self "A053RC1Q027SBEA" start_date None =
    (t2, Returned (ValueFrame profits)) ->
  fetch_series net self "CP" start_date None = (t3, Returned cp) ->
  fetch_series net self "FCTAX" start_date None = (t4, Returned fa) ->
  profits <> [] ->
  result_of (fetch_all_corporate_tax_data net self start_date) =
    Raised (TypeError "Only valid with DatetimeIndex, TimedeltaIndex or PeriodIndex").
Proof.
  intros F1 F2 F3 F4 Hne. unfold fetch_all_corporate_tax_data.
  rewrite F1. run_fetch_all. rewrite F2. run_fetch_all.
  rewrite F3. run_fetch_all. rewrite F4.
  destruct profits as [|r rest]; [congruence|]. reflexivity.
Qed.

(** X15: when the quarterly receipts and profits are fetched with at least
    one row each and without repeated dates, the dictionary holds the four
    fetched frames, the quarterly rate of the fetched series, and the annual
    rate computed from the two series resampled to years (not from the
    annual series that was fetched). *)
Theorem fetch_all_rates_of_fetched_series {C : Coercions} (net : network)
    (self : CorporateTaxDataFetcher) (start_date : option string)
    (t1 t2 t3 t4 : list event) (tax profits : Series) (cp fa : DataFrame) :
  fetch_series net self "B075RC1Q027SBEA" start_date None =
    (t1, Returned (ValueFrame tax)) ->
  fetch_series net self "A053RC1Q027SBEA" start_date None =
    (t2, Returned (ValueFrame profits)) ->
  fetch_series net self "CP" start_date None = (t3, Returned cp) ->
  fetch_series net self "FCTAX" start_date None = (t4, Returned fa) ->
  tax <> [] -> profits <> [] ->
  NoDup (index tax) -> NoDup (index profits) ->
  exists rate_q rate_a,
    calculate_effective_tax_rate tax profits = Ok rate_q /\
    calculate_effective_tax_rate (resample_A_sum_rows tax)
                                 (resample_A_sum_rows profits) = Ok rate_a /\
    result_of (fetch_all_corporate_tax_data net self start_date) =
      Returned
        {| tax_receipts_quarterly := ValueFrame tax;
           profits_before_tax_quarterly := ValueFrame profits;
           profits_after_tax_quarterly := cp;
           effective_tax_rate_quarterly := Some rate_q;
           tax_receipts_annual := fa;
           effective_tax_rate_annual := Some rate_a |}.
Proof.
  intros F1 F2 F3 F4 Ht Hp Ut Up.
  destruct (calculate_unique tax profits Ut Up) as [Eq _].
  destruct (calculate_unique (resample_A_sum_rows tax) (resample_A_sum_rows profits)
              (sorted_NoDup _ (resample_ascending tax))
              (sorted_NoDup _ (resample_ascending profits))) as [Ea _].
  exists (rate_rows tax profits),
         (rate_rows (resample_A_sum_rows tax) (resample_A_sum_rows profits)).
  split; [exact Eq|]. split; [exact Ea|].
  unfold fetch_all_corporate_tax_data.
  rewrite F1. run_fetch_all. rewrite F2. run_fetch_all.
  rewrite F3. run_fetch_all. rewrite F4.
  destruct tax as [|r1 s1]; [congruence|].
  destruct profits as [|r2 s2]; [congruence|].
  run_fetch_all. rewrite Eq. run_fetch_all. rewrite Ea. reflexivity.
Qed.

Lemma eqb_nan (x : float) : PrimFloat.eqb x PrimFloat.nan = false.
Proof.
  rewrite eqb_spec. change (Prim2SF PrimFloat.nan) with S754_nan.
  destruct (Prim2SF x); reflexivity.
Qed.

Lemma label_of_nan (s : Series) : label_of PrimFloat.nan s = None.
Proof.
  induction s as [|[d x] rest IH]; simpl; auto. rewrite eqb_nan. exact IH.
Qed.

(** X19: on an empty rate series (the first one the report reaches),
    [summary_statistics] prints its banner and raises IndexError; no line
    of statistics is printed. *)
Theorem summary_of_empty_rate_raises_index_error (data : data_dict) :
  (effective_tax_rate_quarterly data = Some [] \/
   (effective_tax_rate_quarterly data = None /\
    effective_tax_rate_annual data = Some [])) ->
  summary_statistics data =
    ([Print (String.append nl (str_repeat "=" 60));
      Print "SUMMARY STATISTICS";
      Print (str_repeat "=" 60)],
     Raised (IndexError "index 0 is out of bounds for axis 0 with size 0")).
Proof.
  unfold summary_statistics. intros [H|[H1 H2]].
  - rewrite H. reflexivity.
  - rewrite H1, H2. reflexivity.
Qed.

(** X20: on a quarterly rate series whose values are all NaN,
    [summary_statistics] prints the heading and NaN for mean, median and
    standard deviation, then raises while formatting the date of the
    minimum: no minimum, maximum or decade line is printed. *)
Theorem summary_of_rate_without_values_raises (data : data_dict) (r : date * float) (rest : Series) :
  effective_tax_rate_quarterly data = Some (r :: rest) ->
  dropnan (values (r :: rest)) = [] ->
  (exists e, result_of (summary_statistics data) = Raised e) /\
  report_lines (trace (summary_statistics data)) =
    [Heading Quarterly (year (fst r)) (year (fst (last (r :: rest) r)));
     MeanLine PrimFloat.nan; MedianLine PrimFloat.nan; StdDevLine PrimFloat.nan].
Proof.
  intros Hq Hn. unfold summary_statistics. rewrite Hq.
  unfold describe, first_last_year, idxmin, Series_min, mean, median, std, std_ddof.
  rewrite Hn. cbn [fmin]. rewrite label_of_nan.
  split; [eexists|]; reflexivity.
Qed.

Lemma decade_of_bounds (y : Z) : decade_of y <= y < decade_of y + 10.
Proof.
  unfold decade_of.
  pose proof (Z.div_mod (y - 1950) 10 ltac:(lia)) as E.
  pose proof (Z.mod_pos_bound (y - 1950) 10 ltac:(lia)) as B.
  remember ((y - 1950) / 10) as q. remember ((y - 1950) mod 10) as m.
  lia.
Qed.

Lemma decade_of_listed (y : Z) :
  1950 <= y < 2030 ->
  In (decade_of y) [1950; 1960; 1970; 1980; 1990; 2000; 2010; 2020].
Proof.
  intro H. pose proof (decade_of_bounds y) as B. unfold decade_of in *.
  remember ((y - 1950) / 10) as q eqn:Eq. clear Eq.
  assert (E : q = 0 \/ q = 1 \/ q = 2 \/ q = 3 \/ q = 4 \/ q = 5 \/ q = 6 \/ q = 7)
    by lia.
  clear H B.
  destruct E as [E|[E|[E|[E|[E|[E|[E|E]]]]]]]; subst q; simpl; tauto.
Qed.

Lemma decade_of_unique (y decade : Z) :
  In decade [1950; 1960; 1970; 1980; 1990; 2000; 2010; 2020] ->
  decade <= y < decade + 10 ->
  decade = decade_of y.
Proof.
  intros Hin H. pose proof (decade_of_bounds y) as B. unfold decade_of in *.
  remember ((y - 1950) / 10) as q eqn:Eq. clear Eq.
  destruct Hin as [<-|[<-|[<-|[<-|[<-|[<-|[<-|[<-|[]]]]]]]]]; lia.
Qed.

(** X21: in the report on a quarterly rate with at least one value, every
    observation of the years 1950 to 2029 is counted in exactly one decade
    line, the one of the decade of its year. *)
Theorem each_observation_counts_in_one_decade (data : data_dict) (rate_q : Series) (r : date * float) :
  effective_tax_rate_quarterly data = Some rate_q ->
  dropnan (values rate_q) <> [] ->
  In r rate_q ->
  1950 <= year (fst r) < 2030 ->
  In (decade_of (year (fst r)),
      mean (decade_data rate_q (decade_of (year (fst r)))))
     (decade_averages (trace (summary_statistics data))) /\
  In r (decade_data rate_q (decade_of (year (fst r)))) /\
  (forall decade v,
      In (decade, v) (decade_averages (trace (summary_statistics data))) ->
      In r (decade_data rate_q decade) ->
      decade = decade_of (year (fst r))).
Proof.
  intros Hq Hv Hin Hy.
  destruct (quarterly_block data rate_q Hq Hv) as [D _]. rewrite D. clear D.
  pose proof (decade_of_bounds (year (fst r))) as Hb.
  pose proof (decade_of_listed (year (fst r)) Hy) as Hl.
  assert (Hd : In r (decade_data rate_q (decade_of (year (fst r))))).
  { unfold decade_data. apply filter_In. split; auto.
    apply andb_true_iff. split; [apply Z.leb_le|apply Z.ltb_lt]; lia. }
  split; [|split; [exact Hd|]].
  - unfold decade_lines. apply in_flat_map.
    exists (decade_of (year (fst r))). split; auto.
    destruct (decade_data rate_q (decade_of (year (fst r)))) as [|x bucket];
      [destruct Hd | left; reflexivity].
  - intros decade v Hline Hr. unfold decade_lines in Hline.
    apply in_flat_map in Hline as [x [Hx Hline]].
    destruct (decade_data rate_q x) as [|x0 bucket]; [destruct Hline|].
    destruct Hline as [E|[]]. injection E as <- _.
    unfold decade_data in Hr. apply filter_In in Hr as [_ Hr].
    apply andb_true_iff in Hr as [H1 H2].
    apply Z.leb_le in H1. apply Z.ltb_lt in H2.
    apply decade_of_unique; [exact Hx | lia].
Qed.

Lemma append_inj (p a b : string) :
  String.append p a = String.append p b -> a = b.
Proof.
  induction p as [|c p IH]; simpl; auto. intro H. injection H. auto.
Qed.

Lemma NoDup_map_injective {A B} (f : A -> B) (l : list A) :
  (forall x y, f x = f y -> x = y) -> NoDup l -> NoDup (map f l).
Proof.
  intros Hf ND. induction ND as [|x l Hx ND IH]; simpl; constructor; auto.
  intro H. apply in_map_iff in H as [y [E Hy]]. apply Hf in E. subst. auto.
Qed.

(** X22: [export_to_csv] writes one file per entry of the dictionary,
    named prefix_key.csv, between four and six files in all, and no two
    of them have the same name. *)
Theorem export_writes_distinct_files (data : data_dict) (prefix : string) :
  written (export_to_csv data prefix) =
    map (fun item => String.append prefix
                       (String.append "_" (String.append (fst item) ".csv")))
        (items data) /\
  NoDup (written (export_to_csv data prefix)) /\
  (4 <= List.length (written (export_to_csv data prefix)) <= 6)%nat.
Proof.
  assert (E : written (export_to_csv data prefix) =
              map (fun item => String.append prefix
                       (String.append "_" (String.append (fst item) ".csv")))
                  (items data)).
  { unfold written, export_to_csv. generalize (items data) as l.
    induction l as [|[k v] rest IH]; simpl; [reflexivity|].
    f_equal. exact IH. }
  split; [exact E|]. rewrite E. split.
  - rewrite <- (map_map (fun item : string * entry =>
                            String.append "_" (String.append (fst item) ".csv"))
                         (String.append prefix)).
    apply NoDup_map_injective; [intros x y; apply append_inj|].
    unfold items.
    destruct (effective_tax_rate_quarterly data),
             (effective_tax_rate_annual data); simpl;
      repeat constructor; simpl; intuition discriminate.
  - rewrite length_map. unfold items.
    destruct (effective_tax_rate_quarterly data),
             (effective_tax_rate_annual data); simpl; lia.
Qed.

Lemma resample_index (s : Series) (d : date) :
  In d (index (resample_A_sum_rows s)) <-> exists Y, d = year_end Y /\ spans s Y.
Proof.
  destruct (resample_bins s) as [lo [hi [E Hspan]]]. rewrite E.
  unfold index. rewrite map_map. simpl. rewrite in_map_iff. split.
  - intros [Y [<- HY]]. exists Y. split; auto. apply Hspan, years_In, HY.
  - intros [Y [-> HY]]. exists Y. split; auto. apply years_In, Hspan, HY.
Qed.

Lemma resample_value (s : Series) (Y : Z) :
  spans s Y ->
  get (year_end Y) (resample_A_sum_rows s) =
    Some (nansum (values (filter (in_year Y) (sort_index s)))).
Proof.
  intro H. destruct (resample_bins s) as [lo [hi [E Hspan]]]. rewrite E.
  apply (get_year_end
           (fun y => nansum (values (filter (in_year y) (sort_index s))))).
  apply years_In, Hspan, H.
Qed.

Lemma resample_value_of_gap (s : Series) (Y : Z) :
  spans s Y -> filter (in_year Y) s = [] ->
  get (year_end Y) (resample_A_sum_rows s) = Some 0%float.
Proof.
  intros H Hnone. rewrite (resample_value s Y H).
  pose proof (filter_perm (in_year Y) _ _ (sort_index_perm s)) as P.
  rewrite Hnone in P. apply Permutation_sym, Permutation_nil in P.
  rewrite P. reflexivity.
Qed.

(** X17: the annual rate of two resampled series is always returned,
    ascending, and dated exactly at the 31 December of the years that lie
    within the span of years of both quarterly series. *)
Theorem annual_rate_covers_common_span (tax profits : Series) :
  exists rate,
    calculate_effective_tax_rate (resample_A_sum_rows tax)
                                 (resample_A_sum_rows profits) = Ok rate /\
    ascending rate /\
    forall d, In d (index rate) <->
              exists Y, d = year_end Y /\ spans tax Y /\ spans profits Y.
Proof.
  exists (rate_rows (resample_A_sum_rows tax) (resample_A_sum_rows profits)).
  pose proof (resample_ascending tax) as At.
  pose proof (resample_ascending profits) as Ap.
  split; [|split].
  - apply (proj1 (calculate_unique _ _ (sorted_NoDup _ At) (sorted_NoDup _ Ap))).
  - apply rate_rows_ascending, At.
  - intro d. rewrite rate_rows_index, intersection_In, !resample_index. split.
    + intros [[Y [-> H1]] [Y' [E H2]]]. apply year_end_inj in E. subst Y'.
      exists Y. auto.
    + intros [Y [-> [H1 H2]]]. split; exists Y; auto.
Qed.

(** X18: for a year inside the span of both quarterly series in which the
    profits have no observation, the annual rate is not left out: it is an
    infinity or NaN, and NaN when the receipts have no observation in that
    year either. *)
Theorem annual_rate_of_year_without_profits (tax profits : Series) (Y : Z) :
  spans tax Y -> spans profits Y ->
  filter (in_year Y) profits = [] ->
  exists rate v,
    calculate_effective_tax_rate (resample_A_sum_rows tax)
                                 (resample_A_sum_rows profits) = Ok rate /\
    get (year_end Y) rate = Some v /\
    (PrimFloat.is_nan v = true \/ PrimFloat.is_infinity v = true) /\
    (filter (in_year Y) tax = [] -> PrimFloat.is_nan v = true).
Proof.
  intros St Sp Hp.
  pose proof (resample_value tax Y St) as Gt.
  pose proof (resample_value_of_gap profits Y Sp Hp) as Gp.
  eexists. eexists. split; [|split; [|split]].
  - apply (proj1 (calculate_unique _ _
                    (sorted_NoDup _ (resample_ascending tax))
                    (sorted_NoDup _ (resample_ascending profits)))).
  - apply rate_rows_get; eassumption.
  - apply rate_over_zero. reflexivity.
  - intro Ht. rewrite (resample_value_of_gap tax Y St Ht) in Gt.
    injection Gt as <-. reflexivity.
Qed.

Lemma failed_fetch_returns_nothing {C : Coercions} (net : network)
    (self : CorporateTaxDataFetcher) (series_id : string)
    (start_date end_date : option string) :
  truthy (api_key self) = true ->
  failed (net (base_url self)
              (fetch_series_params self series_id start_date end_date)) = true ->
  exists e,
    fetch_series net self series_id start_date end_date =
    ([HttpGet (base_url self)
              (fetch_series_params self series_id start_date end_date);
      PrintFetchError series_id e], Returned NoColumns).
Proof.
  intros K F. rewrite (fetch_series_run net self _ _ _ K).
  destruct (net (base_url self)
              (fetch_series_params self series_id start_date end_date))
    as [detail|status b]; simpl in F.
  - eauto.
  - rewrite F. eauto.
Qed.

(** X16: when every request fails (in transport or by an error status),
    [fetch_all_corporate_tax_data] does not raise: it logs four errors and
    returns a dictionary with four empty frames and neither of the two
    rates. *)
Theorem fetch_all_on_failing_network_returns_no_rate {C : Coercions} (net : network)
    (self : CorporateTaxDataFetcher) (start_date : option string) :
  truthy (api_key self) = true ->
  (forall url params, failed (net url params) = true) ->
  result_of (fetch_all_corporate_tax_data net self start_date) =
    Returned
      {| tax_receipts_quarterly := NoColumns;
         profits_before_tax_quarterly := NoColumns;
         profits_after_tax_quarterly := NoColumns;
         effective_tax_rate_quarterly := None;
         tax_receipts_annual := NoColumns;
         effective_tax_rate_annual := None |} /\
  List.length (filter (fun ev => match ev with
                                 | PrintFetchError _ _ => true
                                 | _ => false
                                 end)
                      (trace (fetch_all_corporate_tax_data net self start_date)))
    = 4%nat.
Proof.
  intros K F. unfold fetch_all_corporate_tax_data.
  destruct (failed_fetch_returns_nothing net self "B075RC1Q027SBEA"
              start_date None K (F _ _)) as [e1 F1].
  destruct (failed_fetch_returns_nothing net self "A053RC1Q027SBEA"
              start_date None K (F _ _)) as [e2 F2].
  destruct (failed_fetch_returns_nothing net self "CP"
              start_date None K (F _ _)) as [e3 F3].
  destruct (failed_fetch_returns_nothing net self "FCTAX"
              start_date None K (F _ _)) as [e4 F4].
  rewrite F1. run_fetch_all. rewrite F2. run_fetch_all.
  rewrite F3. run_fetch_all. rewrite F4. split; reflexivity.
Qed.

(* ------------------------------------------------------------------ *)
(** ** The further properties on worked inputs *)

Lemma fetch_all_without_key_stops_before_any_request_witness :
  requests (trace (@fetch_all_corporate_tax_data fred sentinel_response
                     (init None) (Some "1950-01-01"))) = [].
Proof.
  rewrite (@fetch_all_without_key_stops_before_any_request fred
             sentinel_response (init None) (Some "1950-01-01") eq_refl).
  reflexivity.
Defined.

Lemma fetch_all_requests_four_series_witness :
  requested_series
    (trace (@fetch_all_corporate_tax_data fred unreachable
              (init (Some "key")) (Some "1950-01-01"))) =
  [Some "B075RC1Q027SBEA"; Some "A053RC1Q027SBEA"; Some "CP"; Some "FCTAX"].
Proof.
  apply (@fetch_all_requests_four_series fred unreachable (init (Some "key"))
           (Some "1950-01-01")
           {| tax_receipts_quarterly := NoColumns;
              profits_before_tax_quarterly := NoColumns;
              profits_after_tax_quarterly := NoColumns;
              effective_tax_rate_quarterly := None;
              tax_receipts_annual := NoColumns;
              effective_tax_rate_annual := None |}).
  reflexivity.
Defined.

Lemma fetch_all_fails_when_only_profits_arrive_witness :
  result_of (@fetch_all_corporate_tax_data fred only_profits
               (init (Some "key")) (Some "1950-01-01")) =
    Raised (TypeError "Only valid with DatetimeIndex, TimedeltaIndex or PeriodIndex").
Proof.
  eapply (@fetch_all_fails_when_only_profits_arrive fred only_profits
            (init (Some "key")) (Some "1950-01-01") _ _ _ _
            [(mkdate 2020 1 1, 1000%float)] NoColumns NoColumns).
  - reflexivity.
  - reflexivity.
  - reflexivity.
  - reflexivity.
  - discriminate.
Defined.

Lemma fetch_all_rates_of_fetched_series_witness :
  exists rate_q rate_a,
    calculate_effective_tax_rate
      [(mkdate 2018 1 1, 100%float); (mkdate 2020 1 1, 120%float)]
      [(mkdate 2018 1 1, 1000%float); (mkdate 2020 1 1, 800%float)] = Ok rate_q /\
    calculate_effective_tax_rate
      (resample_A_sum_rows
         [(mkdate 2018 1 1, 100%float); (mkdate 2020 1 1, 120%float)])
      (resample_A_sum_rows
         [(mkdate 2018 1 1, 1000%float); (mkdate 2020 1 1, 800%float)]) = Ok rate_a /\
    result_of (@fetch_all_corporate_tax_data fred with_gap
                 (init (Some "key")) (Some "1950-01-01")) =
      Returned
        {| tax_receipts_quarterly :=
             ValueFrame [(mkdate 2018 1 1, 100%float); (mkdate 2020 1 1, 120%float)];
           profits_before_tax_quarterly :=
             ValueFrame [(mkdate 2018 1 1, 1000%float); (mkdate 2020 1 1, 800%float)];
           profits_after_tax_quarterly := NoColumns;
           effective_tax_rate_quarterly := Some rate_q;
           tax_receipts_annual := NoColumns;
           effective_tax_rate_annual := Some rate_a |}.
Proof.
  eapply (@fetch_all_rates_of_fetched_series fred with_gap
            (init (Some "key")) (Some "1950-01-01")).
  - reflexivity.
  - reflexivity.
  - reflexivity.
  - reflexivity.
  - discriminate.
  - discriminate.
  - apply is_unique_NoDup. reflexivity.
  - apply is_unique_NoDup. reflexivity.
Defined.

Lemma fetch_all_on_failing_network_returns_no_rate_witness :
  result_of (@fetch_all_corporate_tax_data fred unreachable
               (init (Some "key")) (Some "1950-01-01")) =
    Returned
      {| tax_receipts_quarterly := NoColumns;
         profits_before_tax_quarterly := NoColumns;
         profits_after_tax_quarterly := NoColumns;
         effective_tax_rate_quarterly := None;
         tax_receipts_annual := NoColumns;
         effective_tax_rate_annual := None |}.
Proof.
  apply (@fetch_all_on_failing_network_returns_no_rate fred unreachable
           (init (Some "key")) (Some "1950-01-01") eq_refl).
  intros url params. reflexivity.
Defined.

Lemma annual_rate_of_year_without_profits_witness :
  exists rate v,
    calculate_effective_tax_rate (resample_A_sum_rows gap_series)
                                 (resample_A_sum_rows gap_series) = Ok rate /\
    get (year_end 2019) rate = Some v /\
    (PrimFloat.is_nan v = true \/ PrimFloat.is_infinity v = true) /\
    (filter (in_year 2019) gap_series = [] -> PrimFloat.is_nan v = true).
Proof.
  assert (S19 : spans gap_series 2019).
  { exists (mkdate 2018 1 1, 1%float), (mkdate 2020 1 1, 2%float).
    simpl. repeat split; auto; lia. }
  apply (annual_rate_of_year_without_profits gap_series gap_series 2019 S19 S19).
  reflexivity.
Defined.

Lemma summary_of_empty_rate_raises_index_error_witness :
  summary_statistics (report_of []) =
    ([Print (String.append nl (str_repeat "=" 60));
      Print "SUMMARY STATISTICS";
      Print (str_repeat "=" 60)],
     Raised (IndexError "index 0 is out of bounds for axis 0 with size 0")).
Proof.
  apply (summary_of_empty_rate_raises_index_error (report_of [])).
  left. reflexivity.
Defined.

Lemma summary_of_rate_without_values_raises_witness :
  (exists e, result_of (summary_statistics (report_of all_nan)) = Raised e) /\
  report_lines (trace (summary_statistics (report_of all_nan))) =
    [Heading Quarterly 2020 2020;
     MeanLine PrimFloat.nan; MedianLine PrimFloat.nan; StdDevLine PrimFloat.nan].
Proof.
  apply (summary_of_rate_without_values_raises (report_of all_nan)
           (mkdate 2020 1 1, PrimFloat.nan) [(mkdate 2020 4 1, PrimFloat.nan)]).
  - reflexivity.
  - reflexivity.
Defined.

Lemma each_observation_counts_in_one_decade_witness :
  In (1950, mean (decade_data rate_from_1949 1950))
     (decade_averages (trace (summary_statistics (report_of rate_from_1949)))).
Proof.
  apply (each_observation_counts_in_one_decade (report_of rate_from_1949)
           rate_from_1949 (mkdate 1950 1 1, 40%float)).
  - reflexivity.
  - vm_compute. discriminate.
  - right. left. reflexivity.
  - simpl. lia.
Defined.
